(** * notion_slack_send: Notion task digest posted to a Slack webhook

    Shallow embedding of the two entry points of the repository:

    - [Index]  : the script guarded by the [.last_send.json] marker file
                 (its [run] function, which [api/send.js] wraps);
    - [Handler]: the self-contained request handler, which checks the
                 environment, queries, sends and answers with a JSON body.

    Both files carry their own copy of [queryNotion], [getTaskUrl] and
    [formatTasks]; the copies are textually identical, so they are embedded
    once, at the top level.  The two [sendToSlack] functions differ and are
    embedded separately.

    Asynchronous functions are computations in a state and exception monad
    over a [World] (the marker file and the trace of observable events).
    The clock, the network, the disk fault and the engine's stack traces
    are inputs, gathered in a [Runtime].  A [fetch] may reject, [res.json()]
    may throw, a body may be the JSON value null, and [fs.writeFile] may
    fail before or after it has truncated the file, as in the source.

    Strings are [String.string]; non-ASCII characters of the source literals
    appear as their UTF-8 bytes.  The only character the program inspects is
    the hyphen-minus (one byte, never part of a multi-byte sequence), so the
    byte view and JavaScript's code-unit view agree on what is removed. *)

From Stdlib Require Import String Ascii List ZArith Lia Bool DecimalString.
Import ListNotations.
Local Open Scope list_scope.
Local Open Scope string_scope.

(** ** JavaScript helpers *)

Module Js.

(** Truthiness of a string: only the empty string is falsy. *)
Definition truthy (s : string) : bool :=
  match s with
  | EmptyString => false
  | String _ _ => true
  end.

(** [a || b] where [a] is a string or undefined and [b] a string. *)
Definition or_else (a : option string) (b : string) : string :=
  match a with
  | Some s => if truthy s then s else b
  | None => b
  end.

(** [a || b] where both sides may be undefined. *)
Definition or_opt (a b : option string) : option string :=
  match a with
  | Some s => if truthy s then a else b
  | None => b
  end.

(** [!v] for an environment variable: unset or empty. *)
Definition falsy (v : option string) : bool :=
  match v with
  | Some s => negb (truthy s)
  | None => true
  end.

(** A value interpolated in a template literal. *)
Definition interpolate (v : option string) : string :=
  match v with
  | Some s => s
  | None => "undefined"
  end.

(** [s.replace(/c/g, "")] for a single character [c]. *)
Fixpoint remove_all (c : ascii) (s : string) : string :=
  match s with
  | EmptyString => EmptyString
  | String a rest =>
      if Ascii.eqb a c then remove_all c rest
      else String a (remove_all c rest)
  end.

(** [lines.join(sep)]. *)
Fixpoint join (sep : string) (l : list string) : string :=
  match l with
  | [] => ""
  | [x] => x
  | x :: rest => x ++ sep ++ join sep rest
  end.

(** [s.includes(c)] for a single character [c]. *)
Fixpoint includes (c : ascii) (s : string) : bool :=
  match s with
  | EmptyString => false
  | String a rest => Ascii.eqb a c || includes c rest
  end.

(** Decimal rendering of a non-negative integer in a template literal. *)
Definition of_nat (n : nat) : string :=
  NilZero.string_of_uint (Nat.to_uint n).

(** The line-feed character written [\n] in the source literals. *)
Definition LF_char : ascii := ascii_of_nat 10.
Definition LF : string := String LF_char EmptyString.

(** [s.split(c)] for a single character [c]. *)
Fixpoint split (c : ascii) (s : string) : list string :=
  match s with
  | EmptyString => [""]
  | String a rest =>
      if Ascii.eqb a c then "" :: split c rest
      else match split c rest with
           | [] => [String a ""]
           | first :: others => String a first :: others
           end
  end.

End Js.

(** ** Data model: page objects of a database query response

    Every link of an optional chain [a?.b] is an [option]; [None] stands for
    a member that is missing (or null). *)

Record RichText := { plain_text : option string }.

Record TitleProperty := { title : option (list RichText) }.

Record StatusValue := { name : option string }.

Record StatusProperty := { status : option StatusValue }.

Record Properties := {
  Title : option TitleProperty;
  Name : option TitleProperty;
  Status : option StatusProperty
}.

Record Task := {
  id : string;
  properties : option Properties
}.

(** Optional chaining: [x?.f] where [f] itself may be missing. *)
Definition chain {A B : Type} (x : option A) (f : A -> option B) : option B :=
  match x with
  | Some a => f a
  | None => None
  end.

(** ** Formatting (shared by both entry points) *)

(** [task.properties?.<P>?.title?.[0]?.plain_text] *)
Definition title_text (p : option TitleProperty) : option string :=
  chain (chain (chain p title) (fun l => nth_error l 0)) plain_text.

(** [task.properties?.Status?.status?.name] *)
Definition status_name (t : Task) : option string :=
  chain (chain (chain (properties t) Status) status) name.

Definition getTaskUrl (task : Task) : string :=
  let pageId := Js.remove_all "-"%char (id task) in
  "https://www.notion.so/" ++ pageId.

Definition task_name (task : Task) : string :=
  Js.or_else
    (Js.or_opt (title_text (chain (properties task) Title))
               (title_text (chain (properties task) Name)))
    "Sem título".

Definition task_status (task : Task) : string :=
  Js.or_else (status_name task) "Sem status".

(** The arrow function mapped over the tasks. *)
Definition task_line (task : Task) : string :=
  let name := task_name task in
  let status := task_status task in
  let url := getTaskUrl task in
  "• *<" ++ url ++ "|" ++ name ++ ">* – " ++ status.

Definition formatTasks (tasks : list Task) (title : string) : string :=
  if Nat.eqb (length tasks) 0 then
    "*" ++ title ++ "*" ++ Js.LF ++ "Nenhuma tarefa encontrada."
  else
    let lines := map task_line tasks in
    "*" ++ title ++ "*" ++ Js.LF ++ Js.join Js.LF lines.

(** ** The outside world: clock, network, disk and console *)

(** A thrown JavaScript [Error]. *)
Record Exn := { message : string; stack : string }.

(** The observations the program makes of
    [DateTime.now().setZone("America/Sao_Paulo")]. *)
Record DateTime := {
  hour : Z;
  toISO : string;
  toISODate : string;
  startOfDay : string;   (* now.startOf("day").toISO() *)
  endOfDay : string      (* now.endOf("day").toISO() *)
}.

(** The filter objects handed to [queryNotion]. *)
#[warnings="-register-all"]
Inductive Filter :=
| And (clauses : list Filter)
| Or (clauses : list Filter)
| DateEquals (property value : string)
| StatusEquals (property value : string)
| StatusDoesNotEqual (property value : string)
| LastEditedTime (on_or_after on_or_before : string).

(** The argument of [JSON.stringify] in the two [fetch] calls. *)
Inductive Body :=
| FilterBody (filter : Filter)    (* { filter } *)
| TextBody (text : string).       (* { text: message } *)

Record Request := {
  url : option string;
  method : string;
  headers : list (string * string);
  body : Body
}.

(** The parsed body of a database response: the JSON value null, or any
    other value, of which only the member [results] is read ([None] when
    the value has no such member, as the error payloads). *)
Inductive Data :=
| JsonNull
| JsonValue (results : option (list Task)).

(** A response as seen through [res.status], [res.text()] and
    [res.json()]; the latter throws when the body is not JSON. *)
Record Response := {
  http_status : Z;
  text : string;
  json : Exn + Data
}.

(** [res.ok]: the status is in the range 200-299. *)
Definition ok (res : Response) : bool :=
  (200 <=? http_status res)%Z && (http_status res <=? 299)%Z.

(** [fetch] either rejects (network failure, invalid URL) or resolves. *)
Inductive FetchResult :=
| Rejected (e : Exn)
| Resolved (res : Response).

(** The object kept in [.last_send.json], as [JSON.parse] returns it. *)
Record LastSend := { date : option string; period : option string }.

Inductive FileState :=
| Missing                              (* no file, or unreadable *)
| Content (parsed : option LastSend).  (* [None]: text that is not JSON *)

Inductive Payload :=
| PData (d : Data)
| PText (s : string)
| PExn (e : Exn)
| PNames (l : list string).

Inductive Event :=
| Fetch (req : Request)
| WriteFile (data : LastSend)
| ConsoleLog (line : string) (extra : option Payload)
| ConsoleError (line : string) (extra : Payload).

(** How far a failing [fs.writeFile] got: the open failed and the file is
    as it was; the file was opened, hence truncated, and the text was not
    written completely; or the whole text was written and the failure came
    after. *)
Inductive WriteStage :=
| OpenFailed
| Truncated
| TextWritten.

(** What the process is started with and what answers it. *)
Record Runtime := {
  NOTION_API_KEY : option string;
  NOTION_DATABASE_ID : option string;
  SLACK_WEBHOOK_URL : option string;
  now : DateTime;
  (** the answer to the [k]-th [fetch] of the process (counting from 0) *)
  net : nat -> Request -> FetchResult;
  (** [Some err] when [fs.writeFile] fails *)
  write_fault : option Exn;
  (** the stack the engine attaches to [new Error(msg)] *)
  new_error_stack : string -> string;
  (** the TypeError the engine throws for reading the named member of
      null *)
  type_error : string -> Exn;
  (** how far [fs.writeFile] got when it fails *)
  write_fault_stage : WriteStage
}.

Record World := {
  last_send_file : FileState;
  trace : list Event          (* oldest event first *)
}.

Definition is_fetch (e : Event) : bool :=
  match e with Fetch _ => true | _ => false end.

Definition is_query (e : Event) : bool :=
  match e with
  | Fetch {| body := FilterBody _ |} => true
  | _ => false
  end.

Definition is_send (e : Event) : bool :=
  match e with
  | Fetch {| body := TextBody _ |} => true
  | _ => false
  end.

Definition is_write (e : Event) : bool :=
  match e with WriteFile _ => true | _ => false end.

Definition count (p : Event -> bool) (t : list Event) : nat :=
  length (filter p t).

(** ** A state and exception monad for the asynchronous functions *)

Inductive Outcome (A : Type) :=
| Returned (a : A)
| Thrown (e : Exn).
Arguments Returned {A} a.
Arguments Thrown {A} e.

Definition M (A : Type) : Type := World -> Outcome A * World.

Definition ret {A : Type} (a : A) : M A := fun w => (Returned a, w).

Definition throw {A : Type} (e : Exn) : M A := fun w => (Thrown e, w).

Definition bind {A B : Type} (m : M A) (k : A -> M B) : M B :=
  fun w =>
    match m w with
    | (Returned a, w') => k a w'
    | (Thrown e, w') => (Thrown e, w')
    end.

Definition try_catch {A : Type} (m : M A) (handle : Exn -> M A) : M A :=
  fun w =>
    match m w with
    | (Returned a, w') => (Returned a, w')
    | (Thrown e, w') => handle e w'
    end.

Declare Scope js_scope.
Delimit Scope js_scope with js.
Notation "x <- m ;; k" := (bind m (fun x => k))
  (at level 100, m at next level, right associativity) : js_scope.
Notation "m ;; k" := (bind m (fun _ => k))
  (at level 100, right associativity) : js_scope.
Local Open Scope js_scope.

(** The world after more events have been observed. *)
Definition extend (w : World) (evs : list Event) : World :=
  {| last_send_file := last_send_file w; trace := (trace w ++ evs)%list |}.

Definition emit (e : Event) : M unit :=
  fun w => (Returned tt, extend w [e]).

Definition console_log (line : string) : M unit :=
  emit (ConsoleLog line None).

Definition console_log2 (line : string) (extra : Payload) : M unit :=
  emit (ConsoleLog line (Some extra)).

Definition console_error (line : string) (extra : Payload) : M unit :=
  emit (ConsoleError line extra).

(** [new Error(msg)] *)
Definition new_Error (rt : Runtime) (msg : string) : Exn :=
  {| message := msg; stack := new_error_stack rt msg |}.

(** [await fetch(url, options)] *)
Definition fetch (rt : Runtime) (req : Request) : M Response :=
  fun w =>
    let w' := extend w [Fetch req] in
    match net rt (count is_fetch (trace w)) req with
    | Rejected e => (Thrown e, w')
    | Resolved res => (Returned res, w')
    end.

(** [await res.json()] *)
Definition res_json (res : Response) : M Data :=
  match json res with
  | inl e => throw e
  | inr d => ret d
  end.

(** [x === s] where [x] may be undefined and [s] is a string. *)
Definition strict_eq (x : option string) (s : string) : bool :=
  match x with
  | Some v => String.eqb v s
  | None => false
  end.

(** Rendering of [res.status] in a template literal. *)
Definition of_Z (z : Z) : string := NilZero.string_of_int (Z.to_int z).

(** ** The task query client (shared by both entry points) *)

Definition query_request (rt : Runtime) (filter : Filter) : Request :=
  {| url := Some ("https://api.notion.com/v1/databases/"
                    ++ Js.interpolate (NOTION_DATABASE_ID rt) ++ "/query");
     method := "POST";
     headers := [ ("Authorization",
                   "Bearer " ++ Js.interpolate (NOTION_API_KEY rt));
                  ("Content-Type", "application/json");
                  ("Notion-Version", "2022-06-28") ];
     body := FilterBody filter |}.

Definition queryNotion (rt : Runtime) (filter : Filter) : M (list Task) :=
  res <- fetch rt (query_request rt filter) ;;
  data <- res_json res ;;
  if negb (ok res) then
    console_error "Erro na API do Notion:" (PData data) ;;
    ret []
  else
    match data with
    | JsonNull => throw (type_error rt "results")   (* data.results *)
    | JsonValue (Some l) => ret l   (* an array, even an empty one, is truthy *)
    | JsonValue None => ret []
    end.

Definition slack_request (rt : Runtime) (message : string) : Request :=
  {| url := SLACK_WEBHOOK_URL rt;
     method := "POST";
     headers := [ ("Content-Type", "application/json") ];
     body := TextBody message |}.

(** The two filters built by both entry points. *)
Definition today_filter (todayDate : string) : Filter :=
  And [ DateEquals "Due Date" todayDate;
        StatusDoesNotEqual "Status" "Concluída" ].

Definition changed_filter (startOfDay endOfDay : string) : Filter :=
  And [ LastEditedTime startOfDay endOfDay;
        Or [ StatusEquals "Status" "Em Progresso";
             StatusEquals "Status" "Concluída" ] ].

(** ** The file-guarded entry point *)

Module Index.

Definition sendToSlack (rt : Runtime) (message : string) : M unit :=
  res <- fetch rt (slack_request rt message) ;;
  if negb (ok res) then
    console_error "Erro ao enviar mensagem para o Slack:" (PText (text res))
  else
    ret tt.

(** [readFile] or [JSON.parse] throwing is caught and gives null. *)
Definition readLastSend : M (option LastSend) :=
  fun w =>
    match last_send_file w with
    | Missing => (Returned None, w)
    | Content None => (Returned None, w)
    | Content (Some v) => (Returned (Some v), w)
    end.

(** A failed write is only logged; what it leaves in the file depends on
    how far it got: a truncated or partly written file holds no JSON. *)
Definition writeLastSend (rt : Runtime) (data : LastSend) : M unit :=
  fun w =>
    let t := (trace w ++ [WriteFile data])%list in
    match write_fault rt with
    | None =>
        (Returned tt,
         {| last_send_file := Content (Some data); trace := t |})
    | Some err =>
        (Returned tt,
         {| last_send_file :=
              match write_fault_stage rt with
              | OpenFailed => last_send_file w
              | Truncated => Content None
              | TextWritten => Content (Some data)
              end;
            trace := (t ++ [ConsoleError "Erro ao salvar arquivo de controle:"
                                         (PExn err)])%list |})
    end.

(** [now.hour < 12 ? "morning" : "evening"] *)
Definition current_period (now : DateTime) : string :=
  if (hour now <? 12)%Z then "morning" else "evening".

(** [lastSend?.date === todayDate && lastSend?.period === period] *)
Definition already_sent (lastSend : option LastSend)
           (todayDate period_ : string) : bool :=
  strict_eq (chain lastSend date) todayDate
  && strict_eq (chain lastSend period) period_.

Definition run (rt : Runtime) : M unit :=
  let startOfDay_ := startOfDay (now rt) in
  let endOfDay_ := endOfDay (now rt) in
  let todayDate := toISODate (now rt) in
  let period_ := current_period (now rt) in
  lastSend <- readLastSend ;;
  if already_sent lastSend todayDate period_ then
    console_log ("Mensagem para o período " ++ period_ ++ " de "
                   ++ todayDate ++ " já foi enviada. Saindo.")
  else
    todayTasks <- queryNotion rt (today_filter todayDate) ;;
    changedTasks <- queryNotion rt (changed_filter startOfDay_ endOfDay_) ;;
    let morningMessage :=
      formatTasks todayTasks "Bom dia! Estas são as tarefas para hoje:" in
    let eveningMessage :=
      formatTasks changedTasks "Resumo do dia – alterações:" in
    let message :=
      if String.eqb period_ "morning" then morningMessage
      else eveningMessage in
    console_log ("Hora atual: " ++ toISO (now rt)
                   ++ " - Enviando mensagem para o período: " ++ period_) ;;
    sendToSlack rt message ;;
    writeLastSend rt {| date := Some todayDate; period := Some period_ |} ;;
    console_log "Mensagem enviada e controle atualizado.".

End Index.

(** ** The request-handler entry point *)

Module Handler.

Definition sendToSlack (rt : Runtime) (message : string) : M Response :=
  res <- fetch rt (slack_request rt message) ;;
  if negb (ok res) then
    let errorText := text res in
    console_error "Erro ao enviar mensagem para o Slack:" (PText errorText) ;;
    throw (new_Error rt ("Erro no Slack: " ++ of_Z (http_status res)
                           ++ " - " ++ errorText))
  else
    ret res.

(** The JSON bodies the handler answers with. *)
Inductive ReplyBody :=
| MissingEnv (error : string) (missing : list string)
| Success (success : bool) (message : string) (period : string)
          (todayTasksCount changedTasksCount : nat) (timestamp : string)
| Failure (error : string) (stack : string).

(** [res.status(code).json(body)] *)
Record Reply := { code : Z; reply_body : ReplyBody }.

(** [now.hour < 15 ? "morning" : "evening"] *)
Definition current_period (now : DateTime) : string :=
  if (hour now <? 15)%Z then "morning" else "evening".

(** [missing.push(name)] guarded by [if (!value)]. *)
Definition push_if_missing (value : option string) (name : string)
           (missing : list string) : list string :=
  if Js.falsy value then (missing ++ [name])%list else missing.

Definition missing_variables (rt : Runtime) : list string :=
  let missing := [] in
  let missing := push_if_missing (NOTION_API_KEY rt) "NOTION_API_KEY" missing in
  let missing :=
    push_if_missing (NOTION_DATABASE_ID rt) "NOTION_DATABASE_ID" missing in
  let missing :=
    push_if_missing (SLACK_WEBHOOK_URL rt) "SLACK_WEBHOOK_URL" missing in
  missing.

Definition handler (rt : Runtime) : M Reply :=
  try_catch
    (console_log "=== Iniciando execução ===" ;;
     if Js.falsy (NOTION_API_KEY rt) || Js.falsy (NOTION_DATABASE_ID rt)
        || Js.falsy (SLACK_WEBHOOK_URL rt)
     then
       let missing := missing_variables rt in
       console_error "Variáveis de ambiente faltando:" (PNames missing) ;;
       ret {| code := 500;
              reply_body :=
                MissingEnv "Variáveis de ambiente não configuradas" missing |}
     else
       let startOfDay_ := startOfDay (now rt) in
       let endOfDay_ := endOfDay (now rt) in
       let todayDate := toISODate (now rt) in
       console_log ("Data/hora atual: " ++ toISO (now rt)) ;;
       console_log ("Data de hoje: " ++ todayDate) ;;
       let period_ := current_period (now rt) in
       console_log ("Período detectado: " ++ period_) ;;
       console_log "Buscando tarefas para hoje..." ;;
       todayTasks <- queryNotion rt (today_filter todayDate) ;;
       console_log ("Encontradas " ++ Js.of_nat (length todayTasks)
                      ++ " tarefas para hoje") ;;
       console_log "Buscando tarefas alteradas hoje..." ;;
       changedTasks <- queryNotion rt (changed_filter startOfDay_ endOfDay_) ;;
       console_log ("Encontradas " ++ Js.of_nat (length changedTasks)
                      ++ " tarefas alteradas hoje") ;;
       let morningMessage :=
         formatTasks todayTasks
                     "☀️ Bom dia! Estas são as tarefas para hoje:" in
       let eveningMessage :=
         formatTasks changedTasks "🌙 Resumo do dia – tarefas alteradas:" in
       let message :=
         if String.eqb period_ "morning" then morningMessage
         else eveningMessage in
       console_log ("Enviando mensagem para o período: " ++ period_) ;;
       console_log2 "Mensagem:" (PText message) ;;
       _ <- sendToSlack rt message ;;
       console_log "✅ Mensagem enviada com sucesso!" ;;
       ret {| code := 200;
              reply_body :=
                Success true "Mensagem enviada com sucesso" period_
                        (length todayTasks) (length changedTasks)
                        (toISO (now rt)) |})
    (fun error =>
       console_error "❌ Erro na execução:" (PExn error) ;;
       ret {| code := 500;
              reply_body := Failure (message error) (stack error) |}).

End Handler.

(** ** Vocabulary of the statements *)

(** A response the query client gets a list from: its body parses as JSON,
    and is not null when the status is a success. *)
Definition usable (res : Response) (data : Data) : Prop :=
  json res = inr data /\ (ok res = true -> data <> JsonNull).

(** The list a query yields for a usable response whose body parsed to
    [data]. *)
Definition tasks_of (res : Response) (data : Data) : list Task :=
  if ok res then
    match data with
    | JsonValue (Some l) => l
    | _ => []
    end
  else [].

(** What a query adds to the trace for such a response. *)
Definition query_events (rt : Runtime) (filter : Filter)
           (res : Response) (data : Data) : list Event :=
  Fetch (query_request rt filter)
    :: (if ok res then []
        else [ConsoleError "Erro na API do Notion:" (PData data)]).

(** What [readLastSend] finds in the marker file. *)
Definition stored (w : World) : option LastSend :=
  match last_send_file w with
  | Content (Some v) => Some v
  | _ => None
  end.

(** What a webhook post adds to the trace in the file-guarded script. *)
Definition send_events (rt : Runtime) (message : string)
           (res : Response) : list Event :=
  Fetch (slack_request rt message)
    :: (if ok res then []
        else [ConsoleError "Erro ao enviar mensagem para o Slack:"
                           (PText (text res))]).

(** The record [run] stores after sending. *)
Definition send_record (rt : Runtime) : LastSend :=
  {| date := Some (toISODate (now rt));
     period := Some (Index.current_period (now rt)) |}.

(** The message [run] selects from the two query results. *)
Definition selected_message (rt : Runtime)
           (todayTasks changedTasks : list Task) : string :=
  if String.eqb (Index.current_period (now rt)) "morning"
  then formatTasks todayTasks "Bom dia! Estas são as tarefas para hoje:"
  else formatTasks changedTasks "Resumo do dia – alterações:".

(** What a write of the marker adds to the trace. *)
Definition write_events (rt : Runtime) (data : LastSend) : list Event :=
  WriteFile data
    :: match write_fault rt with
       | None => []
       | Some err =>
           [ConsoleError "Erro ao salvar arquivo de controle:" (PExn err)]
       end.

(** The marker file after a write was attempted. *)
Definition written (rt : Runtime) (data : LastSend) (before : FileState)
  : FileState :=
  match write_fault rt with
  | None => Content (Some data)
  | Some _ =>
      match write_fault_stage rt with
      | OpenFailed => before
      | Truncated => Content None
      | TextWritten => Content (Some data)
      end
  end.

(** The events of a run that goes on to query and send, up to the post. *)
Definition events_until_sent (rt : Runtime)
           (res1 : Response) (data1 : Data)
           (res2 : Response) (data2 : Data) (res3 : Response) : list Event :=
  (query_events rt (today_filter (toISODate (now rt))) res1 data1
   ++ query_events rt (changed_filter (startOfDay (now rt)) (endOfDay (now rt)))
                   res2 data2
   ++ [ConsoleLog ("Hora atual: " ++ toISO (now rt)
                     ++ " - Enviando mensagem para o período: "
                     ++ Index.current_period (now rt)) None]
   ++ send_events rt (selected_message rt (tasks_of res1 data1)
                                       (tasks_of res2 data2)) res3)%list.

(** The names of the environment variables with their values. *)
Definition required_variables (rt : Runtime) : list (string * option string) :=
  [ ("NOTION_API_KEY", NOTION_API_KEY rt);
    ("NOTION_DATABASE_ID", NOTION_DATABASE_ID rt);
    ("SLACK_WEBHOOK_URL", SLACK_WEBHOOK_URL rt) ].

(** ** Sample worlds *)

Module Sample.

(** The TypeError of V8 for reading a member of null. *)
Definition null_member (member : string) : Exn :=
  {| message := "Cannot read properties of null (reading '" ++ member ++ "')";
     stack := "" |}.

Definition morning : DateTime :=
  {| hour := 9;
     toISO := "2024-03-05T09:00:00.000-03:00";
     toISODate := "2024-03-05";
     startOfDay := "2024-03-05T00:00:00.000-03:00";
     endOfDay := "2024-03-05T23:59:59.999-03:00" |}.

Definition page : Task :=
  {| id := "1f0c-77aa-9e";
     properties :=
       Some {| Title := None;
               Name := Some {| title := Some [ {| plain_text := Some "Revisar PR" |} ] |};
               Status := Some {| status := Some {| name := Some "Em Progresso" |} |} |} |}.

(** A page whose name holds a line break. *)
Definition two_line_page : Task :=
  {| id := "1f0c-77aa-9e";
     properties :=
       Some {| Title := None;
               Name := Some {| title :=
                                 Some [ {| plain_text :=
                                             Some ("Revisar" ++ Js.LF ++ "PR") |} ] |};
               Status := Some {| status := Some {| name := Some "Em Progresso" |} |} |} |}.

Definition listing : Response :=
  {| http_status := 200;
     text := "{}";
     json := inr (JsonValue (Some [page; page])) |}.

Definition accepted : Response :=
  {| http_status := 200; text := "ok"; json := inl {| message := "invalid json"; stack := "" |} |}.

Definition refused : Response :=
  {| http_status := 500; text := "no_service"; json := inl {| message := "invalid json"; stack := "" |} |}.

Definition bad_gateway : Response :=
  {| http_status := 502;
     text := "<html>502 Bad Gateway</html>";
     json := inl {| message := "invalid json response body"; stack := "" |} |}.

Definition answer (slack : Response) (k : nat) (req : Request) : FetchResult :=
  match body req with
  | FilterBody _ => Resolved listing
  | TextBody _ => Resolved slack
  end.

Definition runtime (slack : Response) : Runtime :=
  {| NOTION_API_KEY := Some "secret";
     NOTION_DATABASE_ID := Some "db";
     SLACK_WEBHOOK_URL := Some "https://hooks.slack.com/services/T/B/X";
     now := morning;
     net := answer slack;
     write_fault := None;
     new_error_stack := fun msg => "Error: " ++ msg;
   type_error := null_member;
   write_fault_stage := OpenFailed |}.

(** The webhook accepts the message. *)
Definition healthy : Runtime := runtime accepted.

(** The webhook answers 500. *)
Definition slack_down : Runtime := runtime refused.

(** The database endpoint answers 502 with an HTML page. *)
Definition notion_down : Runtime :=
  {| NOTION_API_KEY := Some "secret";
     NOTION_DATABASE_ID := Some "db";
     SLACK_WEBHOOK_URL := Some "https://hooks.slack.com/services/T/B/X";
     now := morning;
     net := fun _ _ => Resolved bad_gateway;
     write_fault := None;
     new_error_stack := fun msg => "Error: " ++ msg;
   type_error := null_member;
   write_fault_stage := OpenFailed |}.

(** Only the webhook URL is configured. *)
Definition unconfigured : Runtime :=
  {| NOTION_API_KEY := None;
     NOTION_DATABASE_ID := None;
     SLACK_WEBHOOK_URL := Some "https://hooks.slack.com/services/T/B/X";
     now := morning;
     net := answer accepted;
     write_fault := None;
     new_error_stack := fun msg => "Error: " ++ msg;
   type_error := null_member;
   write_fault_stage := OpenFailed |}.



(** The database answers 503 with a JSON error payload. *)
Definition unavailable : Response :=
  {| http_status := 503;
     text := "{}";
     json := inr (JsonValue None) |}.

Definition database_error : Runtime :=
  {| NOTION_API_KEY := Some "secret";
     NOTION_DATABASE_ID := Some "db";
     SLACK_WEBHOOK_URL := Some "https://hooks.slack.com/services/T/B/X";
     now := morning;
     net := fun _ req =>
              match body req with
              | FilterBody _ => Resolved unavailable
              | TextBody _ => Resolved accepted
              end;
     write_fault := None;
     new_error_stack := fun msg => "Error: " ++ msg;
   type_error := null_member;
   write_fault_stage := OpenFailed |}.



Definition fresh : World := {| last_send_file := Missing; trace := [] |}.

Definition sent_this_morning : World :=
  {| last_send_file := Content (Some (send_record healthy)); trace := [] |}.

End Sample.

(** ** The wrapper of [api/send.js] around [run] *)

Module ApiSend.

(** [res.status(code).send(text)] *)
Record Reply := { code : Z; sent : string }.

Definition handler (rt : Runtime) : M Reply :=
  try_catch
    (Index.run rt ;;
     ret {| code := 200; sent := "Mensagem enviada com sucesso." |})
    (fun err =>
       console_error "Erro na execução do script:" (PExn err) ;;
       ret {| code := 500; sent := "Erro na execução: " ++ message err |}).

End ApiSend.

(** ** Further vocabulary *)

(** The same world with another marker file. *)
Definition set_file (f : FileState) (w : World) : World :=
  {| last_send_file := f; trace := trace w |}.

(** A computation that neither reads nor writes the marker file: with
    another file it returns the same outcome and the same events, and
    leaves that file in place. *)
Definition file_blind {A : Type} (m : M A) : Prop :=
  forall (w : World) (f : FileState),
    m (set_file f w) = (fst (m w), set_file f (snd (m w))).


(** How the [k]-th request of the process ends when it is a query: with
    the error thrown (the rejection, the parser's error, or the TypeError
    for a null body under a success status), or with the response and its
    parsed body. *)
Definition query_outcome (rt : Runtime) (k : nat) (filter : Filter)
  : Exn + Response * Data :=
  match net rt k (query_request rt filter) with
  | Rejected e => inl e
  | Resolved res =>
      match json res with
      | inl e => inl e
      | inr JsonNull =>
          if ok res then inl (type_error rt "results")
          else inr (res, JsonNull)
      | inr data => inr (res, data)
      end
  end.


(** The three variables are set and not empty. *)
Definition configured (rt : Runtime) : Prop :=
  Js.falsy (NOTION_API_KEY rt) = false
  /\ Js.falsy (NOTION_DATABASE_ID rt) = false
  /\ Js.falsy (SLACK_WEBHOOK_URL rt) = false.


(** What the request handler logs before its first query. *)
Definition handler_prologue (rt : Runtime) : list Event :=
  [ ConsoleLog "=== Iniciando execução ===" None;
    ConsoleLog ("Data/hora atual: " ++ toISO (now rt)) None;
    ConsoleLog ("Data de hoje: " ++ toISODate (now rt)) None;
    ConsoleLog ("Período detectado: " ++ Handler.current_period (now rt)) None;
    ConsoleLog "Buscando tarefas para hoje..." None ].


(** The reply of the request handler's catch clause. *)
Definition failure_reply (e : Exn) : Handler.Reply :=
  {| Handler.code := 500;
     Handler.reply_body := Handler.Failure (message e) (stack e) |}.

(** The events that leave the process: requests and file writes. *)
Definition is_effect (e : Event) : bool := is_fetch e || is_write e.

(** The four ways a run can end. *)
Inductive RunPath (rt : Runtime) (w : World) : Outcome unit -> World -> Prop :=
| Skipped :
    last_send_file w = Content (Some (send_record rt)) ->
    RunPath rt w (Returned tt)
            (extend w [ConsoleLog ("Mensagem para o período "
                                     ++ Index.current_period (now rt) ++ " de "
                                     ++ toISODate (now rt)
                                     ++ " já foi enviada. Saindo.") None])
| Aborted (e : Exn) (evs : list Event) :
    last_send_file w <> Content (Some (send_record rt)) ->
    count is_write evs = 0 ->
    1 <= count is_query evs <= 2 ->
    count is_send evs <= 1 ->
    (count is_send evs = 1 -> count is_query evs = 2) ->
    count is_fetch evs = count is_query evs + count is_send evs ->
    RunPath rt w (Thrown e) (extend w evs)
| Sent (res1 : Response) (data1 : Data) (res2 : Response) (data2 : Data)
       (res3 : Response) :
    last_send_file w <> Content (Some (send_record rt)) ->
    net rt (count is_fetch (trace w) + 2)
        (slack_request rt (selected_message rt (tasks_of res1 data1)
                                            (tasks_of res2 data2)))
    = Resolved res3 ->
    RunPath rt w (Returned tt)
            {| last_send_file :=
                 written rt (send_record rt) (last_send_file w);
               trace :=
                 (trace w
                  ++ events_until_sent rt res1 data1 res2 data2 res3
                  ++ write_events rt (send_record rt)
                  ++ [ConsoleLog "Mensagem enviada e controle atualizado."
                                 None])%list |}.

(** ** The bullet of a task, in the words of the specification *)

Module Spec.

(** The text of the first item of a title-like field, when the field, its
    list, the item and the text are all there and the text is not empty. *)
Definition first_text (field : option TitleProperty) : option string :=
  match field with
  | Some {| title := Some ({| plain_text := Some (String c s) |} :: _) |} =>
      Some (String c s)
  | _ => None
  end.

(** The name: the text of Title, else the text of Name, else the
    placeholder. *)
Definition shown_name (task : Task) : string :=
  match properties task with
  | None => "Sem título"
  | Some fields =>
      match first_text (Title fields) with
      | Some s => s
      | None =>
          match first_text (Name fields) with
          | Some s => s
          | None => "Sem título"
          end
      end
  end.

(** The status: the name of the status when it is there and not empty,
    else the placeholder. *)
Definition shown_status (task : Task) : string :=
  match properties task with
  | Some {| Status :=
              Some {| status := Some {| name := Some (String c s) |} |} |} =>
      String c s
  | _ => "Sem status"
  end.

(** The link: the prefix followed by the identifier without its hyphens. *)
Definition link (task : Task) : string :=
  "https://www.notion.so/"
    ++ string_of_list_ascii
         (filter (fun a => negb (Ascii.eqb a "-"))
                 (list_ascii_of_string (id task))).

Definition bullet (task : Task) : string :=
  "• *<" ++ link task ++ "|" ++ shown_name task ++ ">* – "
    ++ shown_status task.

(** The title between asterisks, then a line feed and a bullet per task. *)
Definition message (title : string) (tasks : list Task) : string :=
  "*" ++ title ++ "*"
    ++ fold_right (fun task rest => Js.LF ++ bullet task ++ rest) "" tasks.

End Spec.

(** * Properties *)

(** ** Strings *)

Lemma includes_append c s1 s2 :
  Js.includes c (s1 ++ s2) = Js.includes c s1 || Js.includes c s2.
Proof.
  induction s1 as [|a s1 IH]; simpl.
  - reflexivity.
  - rewrite IH. now rewrite orb_assoc.
Qed.

Lemma includes_remove_all c s : Js.includes c (Js.remove_all c s) = false.
Proof.
  induction s as [|a s IH]; simpl.
  - reflexivity.
  - destruct (Ascii.eqb a c) eqn:E; simpl.
    + exact IH.
    + now rewrite E, IH.
Qed.

Lemma remove_all_filter c s :
  list_ascii_of_string (Js.remove_all c s)
  = filter (fun a => negb (Ascii.eqb a c)) (list_ascii_of_string s).
Proof.
  induction s as [|a s IH]; simpl.
  - reflexivity.
  - destruct (Ascii.eqb a c); simpl; now rewrite IH.
Qed.

Lemma str_append_assoc (s1 s2 s3 : string) :
  (s1 ++ s2) ++ s3 = s1 ++ (s2 ++ s3).
Proof.
  induction s1 as [|a s1 IH]; simpl; [reflexivity | now rewrite IH].
Qed.

Lemma split_without c s : Js.includes c s = false -> Js.split c s = [s].
Proof.
  induction s as [|a s IH]; simpl; intros H.
  - reflexivity.
  - apply orb_false_iff in H as [Ha Hs].
    rewrite Ha, (IH Hs). reflexivity.
Qed.

Lemma split_at_first c s1 s2 :
  Js.includes c s1 = false ->
  Js.split c (s1 ++ String c s2) = s1 :: Js.split c s2.
Proof.
  induction s1 as [|a s1 IH]; simpl; intros H.
  - now rewrite Ascii.eqb_refl.
  - apply orb_false_iff in H as [Ha Hs].
    rewrite Ha, (IH Hs). reflexivity.
Qed.

Lemma truthy_not_empty s : Js.truthy s = true <-> s <> "".
Proof.
  destruct s; simpl; split; intros H; try discriminate; try reflexivity.
  now contradiction H.
Qed.

(** ** C9: the task link *)

(** C9. For every task identifier the derived URL is the fixed link prefix
    followed by the identifier with every hyphen removed (the remaining
    characters kept in order), and the URL contains no hyphen at all. *)
Theorem getTaskUrl_has_no_hyphen :
  forall task : Task,
    getTaskUrl task = "https://www.notion.so/" ++ Js.remove_all "-" (id task)
    /\ list_ascii_of_string (Js.remove_all "-" (id task))
       = filter (fun a => negb (Ascii.eqb a "-"))
                (list_ascii_of_string (id task))
    /\ Js.includes "-" (getTaskUrl task) = false.
Proof.
  intros task. unfold getTaskUrl. repeat split.
  - apply remove_all_filter.
  - rewrite includes_append, includes_remove_all. reflexivity.
Qed.

(** ** C4: formatting an empty list *)

(** C4, as the specification words it, fails: the title is not emitted
    bare, it is wrapped in asterisks. *)
Lemma formatTasks_empty_title_not_bare :
  formatTasks [] "Resumo" <> "Resumo" ++ Js.LF ++ "Nenhuma tarefa encontrada.".
Proof. discriminate. Qed.

(** C4 (amended). For every title, formatting the empty task list yields
    the title wrapped in asterisks, a line feed and the no-tasks literal;
    when the title holds no line feed these are exactly two lines. *)
Theorem formatTasks_empty :
  forall title : string,
    formatTasks [] title
    = "*" ++ title ++ "*" ++ Js.LF ++ "Nenhuma tarefa encontrada."
    /\ (Js.includes Js.LF_char title = false ->
        Js.split Js.LF_char (formatTasks [] title)
        = ["*" ++ title ++ "*"; "Nenhuma tarefa encontrada."]).
Proof.
  intros title. split; [reflexivity|].
  intros Hfree. unfold formatTasks. simpl Nat.eqb. cbv iota.
  change Js.LF with (String Js.LF_char "").
  replace ("*" ++ title ++ "*" ++ String Js.LF_char "" ++ "Nenhuma tarefa encontrada.")
    with (("*" ++ title ++ "*") ++ String Js.LF_char "Nenhuma tarefa encontrada.").
  - rewrite split_at_first.
    + reflexivity.
    + simpl. rewrite includes_append, Hfree. reflexivity.
  - simpl. now rewrite str_append_assoc.
Qed.

Lemma formatTasks_empty_witness :
  Js.includes Js.LF_char "Resumo" = false
  /\ Js.split Js.LF_char (formatTasks [] "Resumo")
     = ["*Resumo*"; "Nenhuma tarefa encontrada."].
Proof.
  split; [reflexivity|].
  apply (proj2 (formatTasks_empty "Resumo")). reflexivity.
Defined.

(** ** C8: the period *)

(** C8. For every hour from 0 to 23 the period is morning exactly when the
    hour is below the threshold and evening otherwise, the threshold being
    12 in the file-guarded entry point and 15 in the request handler; two
    instants with the same hour get the same period. *)
Theorem current_period_threshold :
  forall now_ : DateTime,
    (0 <= hour now_ <= 23)%Z ->
    (Index.current_period now_ = "morning" <-> (hour now_ < 12)%Z)
    /\ (Index.current_period now_ = "evening" <-> (12 <= hour now_)%Z)
    /\ (Handler.current_period now_ = "morning" <-> (hour now_ < 15)%Z)
    /\ (Handler.current_period now_ = "evening" <-> (15 <= hour now_)%Z)
    /\ forall other : DateTime,
        hour other = hour now_ ->
        Index.current_period other = Index.current_period now_
        /\ Handler.current_period other = Handler.current_period now_.
Proof.
  intros now_ Hrange.
  unfold Index.current_period, Handler.current_period.
  repeat split; try (intros H);
    try (destruct (Z.ltb_spec (hour now_) 12); (discriminate || lia || reflexivity));
    try (destruct (Z.ltb_spec (hour now_) 15); (discriminate || lia || reflexivity));
    now rewrite H.
Qed.

Lemma current_period_threshold_witness :
  Index.current_period Sample.morning = "morning"
  /\ Handler.current_period Sample.morning = "morning".
Proof.
  assert (R : (0 <= hour Sample.morning <= 23)%Z) by (simpl; lia).
  destruct (current_period_threshold Sample.morning R) as (I & _ & H & _).
  split; [apply I | apply H]; simpl; lia.
Defined.

(** ** Reasoning about the monad and the trace *)

Lemma bind_unfold {A B : Type} (m : M A) (k : A -> M B) (w : World) :
  bind m k w
  = match m w with
    | (Returned a, w') => k a w'
    | (Thrown e, w') => (Thrown e, w')
    end.
Proof. reflexivity. Qed.

Lemma extend_extend w evs1 evs2 :
  extend (extend w evs1) evs2 = extend w (evs1 ++ evs2).
Proof. unfold extend; simpl. now rewrite app_assoc. Qed.

Lemma count_app p t1 t2 : count p (t1 ++ t2) = count p t1 + count p t2.
Proof. unfold count. now rewrite filter_app, length_app. Qed.

Lemma emit_eq e w : emit e w = (Returned tt, extend w [e]).
Proof. reflexivity. Qed.

Lemma console_log_eq line w :
  console_log line w = (Returned tt, extend w [ConsoleLog line None]).
Proof. reflexivity. Qed.

Lemma query_events_fetches rt filter res data :
  List.filter is_fetch (query_events rt filter res data)
  = [Fetch (query_request rt filter)].
Proof. unfold query_events. now destruct (ok res). Qed.

(** ** The query client, case by case *)

Lemma queryNotion_rejected rt filter w e :
  net rt (count is_fetch (trace w)) (query_request rt filter) = Rejected e ->
  queryNotion rt filter w
  = (Thrown e, extend w [Fetch (query_request rt filter)]).
Proof.
  intros H. unfold queryNotion. rewrite bind_unfold.
  unfold fetch. now rewrite H.
Qed.

Lemma queryNotion_not_json rt filter w res e :
  net rt (count is_fetch (trace w)) (query_request rt filter) = Resolved res ->
  json res = inl e ->
  queryNotion rt filter w
  = (Thrown e, extend w [Fetch (query_request rt filter)]).
Proof.
  intros H J. unfold queryNotion. rewrite bind_unfold.
  unfold fetch. rewrite H. rewrite bind_unfold.
  unfold res_json. now rewrite J.
Qed.

Lemma queryNotion_null rt filter w res :
  net rt (count is_fetch (trace w)) (query_request rt filter) = Resolved res ->
  json res = inr JsonNull ->
  ok res = true ->
  queryNotion rt filter w
  = (Thrown (type_error rt "results"),
     extend w [Fetch (query_request rt filter)]).
Proof.
  intros H J K. unfold queryNotion. rewrite bind_unfold.
  unfold fetch. rewrite H. rewrite bind_unfold.
  unfold res_json. rewrite J. unfold ret at 1. now rewrite K.
Qed.

Lemma queryNotion_resolved rt filter w res data :
  net rt (count is_fetch (trace w)) (query_request rt filter) = Resolved res ->
  usable res data ->
  queryNotion rt filter w
  = (Returned (tasks_of res data),
     extend w (query_events rt filter res data)).
Proof.
  intros H [J U]. unfold queryNotion. rewrite bind_unfold.
  unfold fetch. rewrite H. rewrite bind_unfold.
  unfold res_json. rewrite J. unfold ret at 1.
  unfold tasks_of, query_events.
  destruct (ok res); simpl.
  - destruct data as [|[l|]]; [now contradiction U | reflexivity | reflexivity].
  - rewrite bind_unfold. unfold console_error. rewrite emit_eq.
    unfold ret. now rewrite extend_extend.
Qed.

(** The query client, in one equation. *)
Lemma queryNotion_outcome rt filter w :
  queryNotion rt filter w
  = match query_outcome rt (count is_fetch (trace w)) filter with
    | inl e => (Thrown e, extend w [Fetch (query_request rt filter)])
    | inr (res, data) =>
        (Returned (tasks_of res data),
         extend w (query_events rt filter res data))
    end.
Proof.
  unfold query_outcome.
  destruct (net rt (count is_fetch (trace w)) (query_request rt filter))
    as [e | res] eqn:H.
  - now apply queryNotion_rejected.
  - destruct (json res) as [e | data] eqn:J.
    + now apply queryNotion_not_json with res.
    + destruct data as [|results].
      * destruct (ok res) eqn:K.
        -- now apply (queryNotion_null rt filter w res).
        -- apply queryNotion_resolved; [exact H|].
           split; [exact J | congruence].
      * apply queryNotion_resolved; [exact H|].
        split; [exact J | discriminate].
Qed.

Lemma query_outcome_inr rt k filter res data :
  query_outcome rt k filter = inr (res, data) <->
  net rt k (query_request rt filter) = Resolved res /\ usable res data.
Proof.
  unfold query_outcome, usable.
  destruct (net rt k (query_request rt filter)) as [e | r].
  - split; [discriminate | intros [[=] _]].
  - destruct (json r) as [e | d] eqn:J.
    + split; [discriminate|]. intros [[= <-] [J' _]]. congruence.
    + destruct d as [|results].
      * destruct (ok r) eqn:K.
        -- split; [discriminate|]. intros [[= <-] [J' U]].
           rewrite J in J'. injection J' as <-. now contradiction (U K).
        -- split.
           ++ intros [= <- <-]. repeat split; [exact J | congruence].
           ++ intros [[= <-] [J' _]]. rewrite J in J'. now injection J' as <-.
      * split.
        -- intros [= <- <-]. repeat split; [exact J | discriminate].
        -- intros [[= <-] [J' _]]. rewrite J in J'. now injection J' as <-.
Qed.


Lemma query_outcome_inl rt k filter e :
  query_outcome rt k filter = inl e <->
  net rt k (query_request rt filter) = Rejected e
  \/ exists res,
      net rt k (query_request rt filter) = Resolved res
      /\ (json res = inl e
          \/ (json res = inr JsonNull /\ ok res = true
              /\ e = type_error rt "results")).
Proof.
  unfold query_outcome.
  destruct (net rt k (query_request rt filter)) as [e' | r].
  - split.
    + intros [= ->]. now left.
    + intros [[= ->] | (res & [=] & _)]. reflexivity.
  - destruct (json r) as [e' | d] eqn:J.
    + split.
      * intros [= ->]. right. exists r. split; [reflexivity | now left].
      * intros [[=] | (res & [= <-] & [J' | (J' & _)])];
          rewrite J in J'; congruence.
    + destruct d as [|results].
      * destruct (ok r) eqn:K.
        -- split.
           ++ intros [= <-]. right. exists r. split; [reflexivity|].
              right. now repeat split.
           ++ intros [[=] | (res & [= <-] & [J' | (_ & _ & ->)])];
                [rewrite J in J'; discriminate | reflexivity].
        -- split; [discriminate|].
           intros [[=] | (res & [= <-] & [J' | (_ & K' & _)])];
             [rewrite J in J'; discriminate | congruence].
      * split; [discriminate|].
        intros [[=] | (res & [= <-] & [J' | (J' & _)])];
          rewrite J in J'; discriminate.
Qed.

(** ** C6: the query client *)

(** C6, as the specification words it, fails: a non-success response whose
    body is not JSON makes the client throw, because the body is parsed
    before the status is looked at. *)
Lemma queryNotion_throws_on_html_error_page :
  ok Sample.bad_gateway = false
  /\ net Sample.notion_down 0 (query_request Sample.notion_down (today_filter "2024-03-05"))
     = Resolved Sample.bad_gateway
  /\ fst (queryNotion Sample.notion_down (today_filter "2024-03-05") Sample.fresh)
     = Thrown {| message := "invalid json response body"; stack := "" |}.
Proof. repeat split. Qed.

(** C6 (amended). When the database endpoint answers with a body that
    parses as JSON: on a non-success status the client logs the parsed
    payload and returns the empty list without throwing; on a success
    status, when the parsed body is not null, it returns the body's results
    list, or the empty list when the body has none.  In these cases exactly
    one request is made. *)
Theorem queryNotion_fail_open :
  forall (rt : Runtime) (filter : Filter) (w : World)
         (res : Response) (data : Data),
    net rt (count is_fetch (trace w)) (query_request rt filter) = Resolved res ->
    json res = inr data ->
    (ok res = false ->
     queryNotion rt filter w
     = (Returned [],
        extend w [Fetch (query_request rt filter);
                  ConsoleError "Erro na API do Notion:" (PData data)]))
    /\ (ok res = true ->
        forall l, data = JsonValue (Some l) ->
                  queryNotion rt filter w
                  = (Returned l, extend w [Fetch (query_request rt filter)]))
    /\ (ok res = true ->
        data = JsonValue None ->
        queryNotion rt filter w
        = (Returned [], extend w [Fetch (query_request rt filter)])).
Proof.
  intros rt filter w res data H J.
  repeat split.
  - intros K. rewrite (queryNotion_resolved rt filter w res data H).
    + unfold tasks_of, query_events. now rewrite K.
    + split; [exact J | congruence].
  - intros K l ->.
    rewrite (queryNotion_resolved rt filter w res (JsonValue (Some l)) H).
    + unfold tasks_of, query_events. now rewrite K.
    + split; [exact J | discriminate].
  - intros K ->.
    rewrite (queryNotion_resolved rt filter w res (JsonValue None) H).
    + unfold tasks_of, query_events. now rewrite K.
    + split; [exact J | discriminate].
Qed.

Lemma queryNotion_fail_open_witness :
  queryNotion Sample.healthy (today_filter "2024-03-05") Sample.fresh
  = (Returned [Sample.page; Sample.page],
     extend Sample.fresh
            [Fetch (query_request Sample.healthy (today_filter "2024-03-05"))]).
Proof.
  refine (proj1 (proj2 (queryNotion_fail_open
                          Sample.healthy (today_filter "2024-03-05")
                          Sample.fresh Sample.listing
                          (JsonValue (Some [Sample.page; Sample.page]))
                          _ _)) _ _ _);
    reflexivity.
Defined.

(** ** The file-guarded run *)

Lemma readLastSend_eq w : Index.readLastSend w = (Returned (stored w), w).
Proof.
  unfold Index.readLastSend, stored.
  destruct (last_send_file w) as [|[v|]]; reflexivity.
Qed.

Lemma strict_eq_true x s : strict_eq x s = true <-> x = Some s.
Proof.
  unfold strict_eq. destruct x as [v|].
  - rewrite String.eqb_eq. split; [now intros -> | now intros [= ->]].
  - split; discriminate.
Qed.

Lemma already_sent_true lastSend d p :
  Index.already_sent lastSend d p = true
  <-> lastSend = Some {| date := Some d; period := Some p |}.
Proof.
  unfold Index.already_sent. rewrite andb_true_iff, !strict_eq_true.
  destruct lastSend as [[vd vp]|]; simpl.
  - split; [intros [-> ->]; reflexivity | intros [= -> ->]; now split].
  - split; [intros [H _]; discriminate | discriminate].
Qed.

Lemma stored_current w v :
  stored w = Some v <-> last_send_file w = Content (Some v).
Proof.
  unfold stored. destruct (last_send_file w) as [|[u|]];
    split; intros H; try discriminate; now inversion H.
Qed.

Lemma sendToSlack_resolved rt message w res :
  net rt (count is_fetch (trace w)) (slack_request rt message) = Resolved res ->
  Index.sendToSlack rt message w
  = (Returned tt, extend w (send_events rt message res)).
Proof.
  intros H. unfold Index.sendToSlack. rewrite bind_unfold.
  unfold fetch. rewrite H. unfold send_events.
  destruct (ok res); simpl.
  - reflexivity.
  - unfold console_error. rewrite emit_eq. now rewrite extend_extend.
Qed.

Lemma run_skips rt w :
  last_send_file w = Content (Some (send_record rt)) ->
  Index.run rt w
  = (Returned tt,
     extend w [ConsoleLog ("Mensagem para o período "
                             ++ Index.current_period (now rt) ++ " de "
                             ++ toISODate (now rt)
                             ++ " já foi enviada. Saindo.") None]).
Proof.
  intros H. unfold Index.run. cbv zeta.
  rewrite bind_unfold, readLastSend_eq.
  apply stored_current in H. rewrite H.
  assert (E : Index.already_sent (Some (send_record rt)) (toISODate (now rt))
                                 (Index.current_period (now rt)) = true)
    by now apply already_sent_true.
  rewrite E. apply console_log_eq.
Qed.

(** ** C1: nothing is queried or sent when the period is already recorded *)

(** C1. Whenever the marker file holds the record (today, current period),
    the run returns normally having only logged that it is skipping: no
    database query, no webhook post and no file write take place, and the
    marker file is left as it was. *)
Theorem run_skips_when_recorded :
  forall (rt : Runtime) (w : World),
    last_send_file w
    = Content (Some {| date := Some (toISODate (now rt));
                       period := Some (Index.current_period (now rt)) |}) ->
    exists evs : list Event,
      Index.run rt w = (Returned tt, extend w evs)
      /\ count is_query evs = 0
      /\ count is_send evs = 0
      /\ count is_fetch evs = 0
      /\ count is_write evs = 0.
Proof.
  intros rt w H. eexists. split.
  - apply run_skips. exact H.
  - repeat split.
Qed.

Lemma run_skips_when_recorded_witness :
  exists evs : list Event,
    Index.run Sample.healthy Sample.sent_this_morning
    = (Returned tt, extend Sample.sent_this_morning evs)
    /\ count is_query evs = 0
    /\ count is_send evs = 0
    /\ count is_fetch evs = 0
    /\ count is_write evs = 0.
Proof.
  apply (run_skips_when_recorded Sample.healthy Sample.sent_this_morning).
  reflexivity.
Defined.

Lemma fetch_index w evs :
  count is_fetch (trace (extend w evs))
  = count is_fetch (trace w) + count is_fetch evs.
Proof. unfold extend; simpl. apply count_app. Qed.

Lemma query_events_fetch_count rt filter res data :
  count is_fetch (query_events rt filter res data) = 1.
Proof. unfold count. now rewrite query_events_fetches. Qed.

Lemma writeLastSend_eq rt data w :
  Index.writeLastSend rt data w
  = (Returned tt,
     {| last_send_file := written rt data (last_send_file w);
        trace := (trace w ++ write_events rt data)%list |}).
Proof.
  unfold Index.writeLastSend, written, write_events.
  destruct (write_fault rt); simpl.
  - now rewrite <- app_assoc.
  - reflexivity.
Qed.

Lemma not_recorded rt w :
  last_send_file w <> Content (Some (send_record rt)) ->
  Index.already_sent (stored w) (toISODate (now rt))
                     (Index.current_period (now rt)) = false.
Proof.
  intros H. apply not_true_is_false. intros E.
  apply already_sent_true in E. apply stored_current in E. now apply H.
Qed.

(** The whole run, when the period is not recorded and the three requests
    are answered. *)
Lemma run_proceeds rt w res1 data1 res2 data2 res3 :
  last_send_file w <> Content (Some (send_record rt)) ->
  net rt (count is_fetch (trace w))
      (query_request rt (today_filter (toISODate (now rt)))) = Resolved res1 ->
  usable res1 data1 ->
  net rt (count is_fetch (trace w) + 1)
      (query_request rt (changed_filter (startOfDay (now rt))
                                        (endOfDay (now rt)))) = Resolved res2 ->
  usable res2 data2 ->
  net rt (count is_fetch (trace w) + 2)
      (slack_request rt (selected_message rt (tasks_of res1 data1)
                                          (tasks_of res2 data2)))
  = Resolved res3 ->
  Index.run rt w
  = (Returned tt,
     {| last_send_file := written rt (send_record rt) (last_send_file w);
        trace := (trace w
                  ++ events_until_sent rt res1 data1 res2 data2 res3
                  ++ write_events rt (send_record rt)
                  ++ [ConsoleLog "Mensagem enviada e controle atualizado."
                                 None])%list |}).
Proof.
  intros Hstale H1 J1 H2 J2 H3.
  unfold Index.run. cbv zeta.
  rewrite bind_unfold, readLastSend_eq, (not_recorded _ _ Hstale).
  rewrite bind_unfold, (queryNotion_resolved _ _ _ _ _ H1 J1).
  rewrite bind_unfold, (queryNotion_resolved _ _ _ res2 data2).
  2: { rewrite fetch_index, query_events_fetch_count. exact H2. }
  2: exact J2.
  rewrite bind_unfold, console_log_eq.
  rewrite bind_unfold.
  fold (selected_message rt (tasks_of res1 data1) (tasks_of res2 data2)).
  rewrite (sendToSlack_resolved _ _ _ res3).
  2: { rewrite !extend_extend, fetch_index, !count_app,
         !query_events_fetch_count.
       simpl.
       replace (count is_fetch (trace w) + (1 + (1 + 0)))
         with (count is_fetch (trace w) + 2) by lia.
       exact H3. }
  rewrite bind_unfold, writeLastSend_eq.
  rewrite console_log_eq. unfold extend, events_until_sent.
  cbn [last_send_file trace].
  repeat rewrite <- app_assoc. reflexivity.
Qed.

(** ** C7: a run that is not skipped *)




(** ** C2: a failed post *)

(** C2 is not what the file-guarded script does.  With no marker file and a
    webhook answering 500, the run logs the failure, still writes the record
    (today, current period) and reports success; the next run of the same
    period finds the record and posts nothing. *)
Theorem run_records_failed_send :
  ok Sample.refused = false
  /\ fst (Index.run Sample.slack_down Sample.fresh) = Returned tt
  /\ count is_send (trace (snd (Index.run Sample.slack_down Sample.fresh))) = 1
  /\ last_send_file (snd (Index.run Sample.slack_down Sample.fresh))
     = Content (Some {| date := Some "2024-03-05"; period := Some "morning" |})
  /\ In (ConsoleLog "Mensagem enviada e controle atualizado." None)
        (trace (snd (Index.run Sample.slack_down Sample.fresh)))
  /\ exists evs : list Event,
      Index.run Sample.slack_down
                (snd (Index.run Sample.slack_down Sample.fresh))
      = (Returned tt,
         extend (snd (Index.run Sample.slack_down Sample.fresh)) evs)
      /\ count is_send evs = 0
      /\ count is_query evs = 0.
Proof.
  split; [reflexivity|]. split; [reflexivity|]. split; [reflexivity|].
  split; [reflexivity|]. split.
  - vm_compute. intuition.
  - eexists. split; [apply run_skips; reflexivity|]. split; reflexivity.
Qed.

(** ** The request handler *)

Lemma handler_sendToSlack_rejected rt message w e :
  net rt (count is_fetch (trace w)) (slack_request rt message) = Rejected e ->
  Handler.sendToSlack rt message w
  = (Thrown e, extend w [Fetch (slack_request rt message)]).
Proof.
  intros H. unfold Handler.sendToSlack. rewrite bind_unfold.
  unfold fetch. now rewrite H.
Qed.

(** In the handler a refused post is raised as an error. *)
Lemma handler_sendToSlack_refused rt message w res :
  net rt (count is_fetch (trace w)) (slack_request rt message) = Resolved res ->
  ok res = false ->
  Handler.sendToSlack rt message w
  = (Thrown (new_Error rt ("Erro no Slack: " ++ of_Z (http_status res)
                             ++ " - " ++ text res)),
     extend w [Fetch (slack_request rt message);
               ConsoleError "Erro ao enviar mensagem para o Slack:"
                            (PText (text res))]).
Proof.
  intros H Hok. unfold Handler.sendToSlack. rewrite bind_unfold.
  unfold fetch. rewrite H. cbv beta iota zeta. rewrite Hok.
  cbv beta iota zeta delta [negb].
  rewrite bind_unfold. unfold console_error. rewrite emit_eq.
  unfold throw. now rewrite extend_extend.
Qed.

Lemma handler_sendToSlack_accepted rt message w res :
  net rt (count is_fetch (trace w)) (slack_request rt message) = Resolved res ->
  ok res = true ->
  Handler.sendToSlack rt message w
  = (Returned res, extend w [Fetch (slack_request rt message)]).
Proof.
  intros H Hok. unfold Handler.sendToSlack. rewrite bind_unfold.
  unfold fetch. now rewrite H, Hok.
Qed.

Lemma try_catch_unfold {A : Type} (m : M A) (h : Exn -> M A) (w : World) :
  try_catch m h w
  = match m w with
    | (Returned a, w') => (Returned a, w')
    | (Thrown e, w') => h e w'
    end.
Proof. reflexivity. Qed.

Lemma fetch_index_logs w evs :
  count is_fetch evs = 0 ->
  count is_fetch (trace (extend w evs)) = count is_fetch (trace w).
Proof. intros H. rewrite fetch_index, H. apply Nat.add_0_r. Qed.

(** ** C3: missing configuration *)

(** C3. Whenever at least one of the three required variables is absent,
    the handler answers 500 with the configuration-error body, without any
    request; the body's missing list holds, in declaration order, the name
    of every variable that is unset or empty, so every absent variable is
    named, whichever subset is absent. *)
Theorem handler_names_every_missing_variable :
  forall (rt : Runtime) (w : World),
    NOTION_API_KEY rt = None \/ NOTION_DATABASE_ID rt = None
    \/ SLACK_WEBHOOK_URL rt = None ->
    exists missing : list string,
      Handler.handler rt w
      = (Returned {| Handler.code := 500;
                     Handler.reply_body :=
                       Handler.MissingEnv
                         "Variáveis de ambiente não configuradas" missing |},
         extend w [ConsoleLog "=== Iniciando execução ===" None;
                   ConsoleError "Variáveis de ambiente faltando:"
                                (PNames missing)])
      /\ missing
         = map fst (List.filter (fun entry => Js.falsy (snd entry))
                                (required_variables rt))
      /\ (NOTION_API_KEY rt = None -> In "NOTION_API_KEY" missing)
      /\ (NOTION_DATABASE_ID rt = None -> In "NOTION_DATABASE_ID" missing)
      /\ (SLACK_WEBHOOK_URL rt = None -> In "SLACK_WEBHOOK_URL" missing).
Proof.
  intros rt w Habsent.
  exists (Handler.missing_variables rt).
  assert (Hcheck : Js.falsy (NOTION_API_KEY rt)
                   || Js.falsy (NOTION_DATABASE_ID rt)
                   || Js.falsy (SLACK_WEBHOOK_URL rt) = true).
  { destruct Habsent as [E | [E | E]]; rewrite E; simpl;
      rewrite ?orb_true_r; reflexivity. }
  split; [|split].
  - unfold Handler.handler.
    rewrite try_catch_unfold, bind_unfold, console_log_eq, Hcheck.
    cbv zeta. rewrite bind_unfold. unfold console_error. rewrite emit_eq.
    unfold ret. now rewrite extend_extend.
  - unfold Handler.missing_variables, Handler.push_if_missing,
      required_variables. cbv zeta. simpl List.filter. simpl snd.
    destruct (Js.falsy (NOTION_API_KEY rt)),
      (Js.falsy (NOTION_DATABASE_ID rt)),
      (Js.falsy (SLACK_WEBHOOK_URL rt)); reflexivity.
  - unfold Handler.missing_variables, Handler.push_if_missing. cbv zeta.
    repeat split; intros E; rewrite E; simpl;
      destruct (Js.falsy (NOTION_API_KEY rt)),
        (Js.falsy (NOTION_DATABASE_ID rt)),
        (Js.falsy (SLACK_WEBHOOK_URL rt)); simpl; auto 6.
Qed.

Lemma handler_names_every_missing_variable_witness :
  exists missing : list string,
    Handler.handler Sample.unconfigured Sample.fresh
    = (Returned {| Handler.code := 500;
                   Handler.reply_body :=
                     Handler.MissingEnv
                       "Variáveis de ambiente não configuradas" missing |},
       extend Sample.fresh
              [ConsoleLog "=== Iniciando execução ===" None;
               ConsoleError "Variáveis de ambiente faltando:"
                            (PNames missing)])
    /\ missing = ["NOTION_API_KEY"; "NOTION_DATABASE_ID"].
Proof.
  destruct (handler_names_every_missing_variable
              Sample.unconfigured Sample.fresh (or_introl eq_refl))
    as (missing & Hrun & Hmissing & _).
  exists missing. split; [exact Hrun | exact Hmissing].
Defined.

(** ** C10: the success reply *)

(** The reply of the handler's catch clause is never a 200. *)
Ltac answered_500 Hrun Hcode :=
  cbv beta in Hrun;
  try rewrite bind_unfold in Hrun;
  unfold console_error in Hrun; rewrite ?emit_eq in Hrun;
  unfold ret in Hrun;
  inversion Hrun; subst; simpl in Hcode; discriminate Hcode.

(** C10. Whenever the handler answers 200, both database requests were
    answered with JSON bodies, and the reply body carries success true, the
    fixed success text, the period computed from the hour against 15, the
    lengths of the lists the first and the second query yielded for those
    answers, and the current timestamp. *)
Theorem handler_success_reports_counts :
  forall (rt : Runtime) (w w' : World) (reply : Handler.Reply),
    Handler.handler rt w = (Returned reply, w') ->
    Handler.code reply = 200%Z ->
    exists (res1 : Response) (data1 : Data) (res2 : Response) (data2 : Data),
      net rt (count is_fetch (trace w))
          (query_request rt (today_filter (toISODate (now rt))))
      = Resolved res1
      /\ json res1 = inr data1
      /\ net rt (count is_fetch (trace w) + 1)
             (query_request rt (changed_filter (startOfDay (now rt))
                                               (endOfDay (now rt))))
         = Resolved res2
      /\ json res2 = inr data2
      /\ Handler.reply_body reply
         = Handler.Success true "Mensagem enviada com sucesso"
                           (Handler.current_period (now rt))
                           (length (tasks_of res1 data1))
                           (length (tasks_of res2 data2))
                           (toISO (now rt)).
Proof.
  intros rt w w' reply Hrun Hcode.
  unfold Handler.handler in Hrun.
  rewrite try_catch_unfold, bind_unfold, console_log_eq in Hrun.
  destruct (Js.falsy (NOTION_API_KEY rt) || Js.falsy (NOTION_DATABASE_ID rt)
            || Js.falsy (SLACK_WEBHOOK_URL rt)).
  { cbv zeta in Hrun. rewrite bind_unfold in Hrun.
    answered_500 Hrun Hcode. }
  cbv zeta in Hrun.
  do 4 (rewrite bind_unfold, console_log_eq, extend_extend in Hrun).
  rewrite bind_unfold, queryNotion_outcome in Hrun.
  rewrite fetch_index_logs in Hrun by reflexivity.
  destruct (query_outcome rt (count is_fetch (trace w))
                          (today_filter (toISODate (now rt))))
    as [e1 | [res1 data1]] eqn:Q1.
  { answered_500 Hrun Hcode. }
  do 2 (rewrite bind_unfold, console_log_eq, extend_extend in Hrun).
  rewrite bind_unfold, queryNotion_outcome in Hrun.
  match type of Hrun with
  | context [query_outcome rt ?k (changed_filter _ _)] =>
      replace k with (count is_fetch (trace w) + 1) in Hrun
        by (rewrite !fetch_index, !count_app, query_events_fetch_count;
            cbn [count List.filter is_fetch length]; lia)
  end.
  destruct (query_outcome rt (count is_fetch (trace w) + 1)
                          (changed_filter (startOfDay (now rt))
                                          (endOfDay (now rt))))
    as [e2 | [res2 data2]] eqn:Q2.
  { answered_500 Hrun Hcode. }
  apply query_outcome_inr in Q1 as [H1 [J1 _]].
  apply query_outcome_inr in Q2 as [H2 [J2 _]].
  exists res1, data1, res2, data2.
  split; [exact H1|]. split; [exact J1|].
  split; [exact H2|]. split; [exact J2|].
  rewrite bind_unfold, console_log_eq, extend_extend in Hrun.
  rewrite bind_unfold, console_log_eq, extend_extend in Hrun.
  unfold console_log2 in Hrun.
  rewrite bind_unfold, emit_eq, extend_extend in Hrun.
  rewrite bind_unfold in Hrun.
  match type of Hrun with
  | context [Handler.sendToSlack rt ?msg ?w3] =>
      destruct (net rt (count is_fetch (trace w3)) (slack_request rt msg))
        as [e3 | res3] eqn:H3;
      [ rewrite (handler_sendToSlack_rejected rt msg w3 e3 H3) in Hrun
      | destruct (ok res3) eqn:Hok;
        [ rewrite (handler_sendToSlack_accepted rt msg w3 res3 H3 Hok) in Hrun
        | rewrite (handler_sendToSlack_refused rt msg w3 res3 H3 Hok) in Hrun ] ]
  end.
  - answered_500 Hrun Hcode.
  - rewrite bind_unfold, console_log_eq in Hrun. unfold ret in Hrun.
    inversion Hrun. reflexivity.
  - answered_500 Hrun Hcode.
Qed.

Lemma handler_success_reports_counts_witness :
  exists (res1 : Response) (data1 : Data) (res2 : Response) (data2 : Data),
    net Sample.healthy 0
        (query_request Sample.healthy (today_filter "2024-03-05"))
    = Resolved res1
    /\ json res1 = inr data1
    /\ net Sample.healthy 1
           (query_request Sample.healthy
              (changed_filter "2024-03-05T00:00:00.000-03:00"
                              "2024-03-05T23:59:59.999-03:00"))
       = Resolved res2
    /\ json res2 = inr data2
    /\ Handler.reply_body (match fst (Handler.handler Sample.healthy Sample.fresh) with
                           | Returned reply => reply
                           | Thrown _ => {| Handler.code := 0;
                                            Handler.reply_body := Handler.Failure "" "" |}
                           end)
       = Handler.Success true "Mensagem enviada com sucesso" "morning"
                         (length (tasks_of res1 data1))
                         (length (tasks_of res2 data2))
                         "2024-03-05T09:00:00.000-03:00".
Proof.
  refine (handler_success_reports_counts
            Sample.healthy Sample.fresh
            (snd (Handler.handler Sample.healthy Sample.fresh)) _ _ _);
    reflexivity.
Defined.

(** * Further properties *)

(** ** The query client, whatever the network does *)

Lemma query_events_queries rt filter res data :
  count is_query (query_events rt filter res data) = 1.
Proof. unfold query_events. now destruct (ok res). Qed.

Lemma query_events_sends rt filter res data :
  count is_send (query_events rt filter res data) = 0.
Proof. unfold query_events. now destruct (ok res). Qed.

Lemma query_events_writes rt filter res data :
  count is_write (query_events rt filter res data) = 0.
Proof. unfold query_events. now destruct (ok res). Qed.

(** X1. Whatever the network does, a query makes exactly one request and
    no file write, and leaves the marker file alone.  It throws in exactly
    three cases: the request was rejected (that error), the response body
    is not JSON (the parser's error), or the status is a success and the
    body is the JSON value null (the TypeError of reading [results]). *)
Theorem queryNotion_one_request :
  forall (rt : Runtime) (filter : Filter) (w : World),
    exists evs : list Event,
      snd (queryNotion rt filter w) = extend w evs
      /\ count is_fetch evs = 1
      /\ count is_query evs = 1
      /\ count is_write evs = 0
      /\ forall e : Exn,
          fst (queryNotion rt filter w) = Thrown e
          <-> (net rt (count is_fetch (trace w)) (query_request rt filter)
               = Rejected e
               \/ exists res,
                   net rt (count is_fetch (trace w)) (query_request rt filter)
                   = Resolved res
                   /\ (json res = inl e
                       \/ (json res = inr JsonNull /\ ok res = true
                           /\ e = type_error rt "results"))).
Proof.
  intros rt filter w. rewrite queryNotion_outcome.
  destruct (query_outcome rt (count is_fetch (trace w)) filter)
    as [e | [res data]] eqn:Q.
  - exists [Fetch (query_request rt filter)]. repeat split; simpl.
    + intros [= <-]. now apply query_outcome_inl.
    + intros H. apply query_outcome_inl in H. rewrite Q in H.
      now inversion H.
  - exists (query_events rt filter res data).
    split; [reflexivity|].
    split; [apply query_events_fetch_count|].
    split; [apply query_events_queries|].
    split; [apply query_events_writes|].
    intros e. simpl. split; [discriminate|].
    intros H. apply query_outcome_inl in H. rewrite Q in H. discriminate.
Qed.

(** ** The file-guarded run, path by path *)

Lemma recorded_iff rt w :
  Index.already_sent (stored w) (toISODate (now rt))
                     (Index.current_period (now rt)) = true
  <-> last_send_file w = Content (Some (send_record rt)).
Proof. rewrite already_sent_true. apply stored_current. Qed.

Lemma count_fetch_log line extra :
  count is_fetch [ConsoleLog line extra] = 0.
Proof. reflexivity. Qed.

Lemma run_first_query_throws rt w e :
  last_send_file w <> Content (Some (send_record rt)) ->
  query_outcome rt (count is_fetch (trace w))
                (today_filter (toISODate (now rt))) = inl e ->
  Index.run rt w
  = (Thrown e,
     extend w [Fetch (query_request rt (today_filter (toISODate (now rt))))]).
Proof.
  intros Hstale Q. unfold Index.run. cbv zeta.
  rewrite bind_unfold, readLastSend_eq, (not_recorded _ _ Hstale).
  now rewrite bind_unfold, queryNotion_outcome, Q.
Qed.

Lemma run_second_query_throws rt w res1 data1 e :
  last_send_file w <> Content (Some (send_record rt)) ->
  query_outcome rt (count is_fetch (trace w))
                (today_filter (toISODate (now rt))) = inr (res1, data1) ->
  query_outcome rt (count is_fetch (trace w) + 1)
                (changed_filter (startOfDay (now rt)) (endOfDay (now rt)))
  = inl e ->
  Index.run rt w
  = (Thrown e,
     extend w (query_events rt (today_filter (toISODate (now rt))) res1 data1
               ++ [Fetch (query_request rt
                            (changed_filter (startOfDay (now rt))
                                            (endOfDay (now rt))))])%list).
Proof.
  intros Hstale Q1 Q2. unfold Index.run. cbv zeta.
  rewrite bind_unfold, readLastSend_eq, (not_recorded _ _ Hstale).
  rewrite bind_unfold, queryNotion_outcome, Q1.
  rewrite bind_unfold, queryNotion_outcome.
  rewrite fetch_index, query_events_fetch_count, Q2.
  now rewrite extend_extend.
Qed.

Lemma run_post_rejected rt w res1 data1 res2 data2 e :
  last_send_file w <> Content (Some (send_record rt)) ->
  query_outcome rt (count is_fetch (trace w))
                (today_filter (toISODate (now rt))) = inr (res1, data1) ->
  query_outcome rt (count is_fetch (trace w) + 1)
                (changed_filter (startOfDay (now rt)) (endOfDay (now rt)))
  = inr (res2, data2) ->
  net rt (count is_fetch (trace w) + 2)
      (slack_request rt (selected_message rt (tasks_of res1 data1)
                                          (tasks_of res2 data2)))
  = Rejected e ->
  Index.run rt w
  = (Thrown e,
     extend w
       (query_events rt (today_filter (toISODate (now rt))) res1 data1
        ++ query_events rt (changed_filter (startOfDay (now rt))
                                           (endOfDay (now rt))) res2 data2
        ++ [ConsoleLog ("Hora atual: " ++ toISO (now rt)
                          ++ " - Enviando mensagem para o período: "
                          ++ Index.current_period (now rt)) None;
            Fetch (slack_request rt
                     (selected_message rt (tasks_of res1 data1)
                                       (tasks_of res2 data2)))])%list).
Proof.
  intros Hstale Q1 Q2 H3. unfold Index.run. cbv zeta.
  rewrite bind_unfold, readLastSend_eq, (not_recorded _ _ Hstale).
  rewrite bind_unfold, queryNotion_outcome, Q1.
  rewrite bind_unfold, queryNotion_outcome.
  rewrite fetch_index, query_events_fetch_count, Q2.
  rewrite bind_unfold, console_log_eq, bind_unfold.
  fold (selected_message rt (tasks_of res1 data1) (tasks_of res2 data2)).
  unfold Index.sendToSlack. rewrite bind_unfold. unfold fetch.
  rewrite !extend_extend, fetch_index, !count_app, !query_events_fetch_count.
  rewrite count_fetch_log.
  replace (count is_fetch (trace w) + (1 + (1 + 0)))
    with (count is_fetch (trace w) + 2) by lia.
  rewrite H3. repeat rewrite <- app_assoc. reflexivity.
Qed.

Lemma events_until_sent_queries rt res1 data1 res2 data2 res3 :
  count is_query (events_until_sent rt res1 data1 res2 data2 res3) = 2.
Proof.
  unfold events_until_sent, query_events, send_events.
  destruct (ok res1), (ok res2), (ok res3); reflexivity.
Qed.


Lemma events_until_sent_writes rt res1 data1 res2 data2 res3 :
  count is_write (events_until_sent rt res1 data1 res2 data2 res3) = 0.
Proof.
  unfold events_until_sent, query_events, send_events.
  destruct (ok res1), (ok res2), (ok res3); reflexivity.
Qed.

Lemma events_until_sent_fetches rt res1 data1 res2 data2 res3 :
  count is_fetch (events_until_sent rt res1 data1 res2 data2 res3) = 3.
Proof.
  unfold events_until_sent, query_events, send_events.
  destruct (ok res1), (ok res2), (ok res3); reflexivity.
Qed.


(** Counting the requests and writes of a list of events built from
    query events and single events. *)
Ltac tally :=
  rewrite ?count_app, ?query_events_queries, ?query_events_writes,
    ?query_events_sends, ?query_events_fetch_count;
  cbn [count List.filter is_query is_send is_write is_fetch body length
       slack_request query_request];
  lia.

Lemma run_path rt w :
  RunPath rt w (fst (Index.run rt w)) (snd (Index.run rt w)).
Proof.
  destruct (Index.already_sent (stored w) (toISODate (now rt))
                               (Index.current_period (now rt))) eqn:A.
  - apply recorded_iff in A. rewrite (run_skips _ _ A). now apply Skipped.
  - assert (Hstale : last_send_file w <> Content (Some (send_record rt))).
    { intros E. apply recorded_iff in E. congruence. }
    destruct (query_outcome rt (count is_fetch (trace w))
                            (today_filter (toISODate (now rt))))
      as [e | [res1 data1]] eqn:Q1.
    { rewrite (run_first_query_throws _ _ _ Hstale Q1). cbn [fst snd].
      apply Aborted; auto; tally. }
    destruct (query_outcome rt (count is_fetch (trace w) + 1)
                            (changed_filter (startOfDay (now rt))
                                            (endOfDay (now rt))))
      as [e | [res2 data2]] eqn:Q2.
    { rewrite (run_second_query_throws _ _ _ _ _ Hstale Q1 Q2).
      cbn [fst snd]. apply Aborted; auto; tally. }
    destruct (net rt (count is_fetch (trace w) + 2)
                  (slack_request rt (selected_message rt (tasks_of res1 data1)
                                                      (tasks_of res2 data2))))
      as [e | res3] eqn:H3.
    { rewrite (run_post_rejected _ _ _ _ _ _ _ Hstale Q1 Q2 H3).
      cbn [fst snd]. apply Aborted; auto; tally. }
    apply query_outcome_inr in Q1 as [H1 J1].
    apply query_outcome_inr in Q2 as [H2 J2].
    rewrite (run_proceeds _ _ _ _ _ _ _ Hstale H1 J1 H2 J2 H3).
    cbn [fst snd]. now apply Sent.
Qed.

Lemma run_trace rt w out w' :
  RunPath rt w out w' -> exists evs, trace w' = (trace w ++ evs)%list.
Proof.
  intros [A | e evs _ _ _ _ _ _ | r1 d1 r2 d2 r3 _ _]; eexists; reflexivity.
Qed.

(** ** The marker file across runs *)

Lemma run_thrown rt w w' e :
  Index.run rt w = (Thrown e, w') ->
  last_send_file w <> Content (Some (send_record rt))
  /\ exists evs : list Event,
      w' = extend w evs
      /\ count is_write evs = 0
      /\ 1 <= count is_query evs.
Proof.
  intros Hrun.
  pose proof (run_path rt w) as P. rewrite Hrun in P. cbn [fst snd] in P.
  inversion P as [ | e' evs Hstale Hw Hq Hs Hsq Hf | ]; subst.
  split; [exact Hstale|].
  exists evs. split; [reflexivity|]. split; [exact Hw | lia].
Qed.

(** X2. A run that throws leaves the marker file untouched and attempts no
    write; the period was not recorded before and is not recorded after, so
    the next run of that period queries again. *)
Theorem run_throw_leaves_marker :
  forall (rt : Runtime) (w w' : World) (e : Exn),
    Index.run rt w = (Thrown e, w') ->
    last_send_file w' = last_send_file w
    /\ last_send_file w' <> Content (Some (send_record rt))
    /\ exists evs : list Event,
        trace w' = (trace w ++ evs)%list
        /\ count is_write evs = 0
        /\ 1 <= count is_query evs.
Proof.
  intros rt w w' e Hrun.
  destruct (run_thrown rt w w' e Hrun) as (Hstale & evs & -> & Hw & Hq).
  split; [reflexivity|]. split; [exact Hstale|].
  exists evs. split; [reflexivity|]. split; assumption.
Qed.

Lemma run_throw_leaves_marker_witness :
  last_send_file (snd (Index.run Sample.notion_down Sample.fresh))
  = last_send_file Sample.fresh
  /\ last_send_file (snd (Index.run Sample.notion_down Sample.fresh))
     <> Content (Some (send_record Sample.notion_down))
  /\ exists evs : list Event,
      trace (snd (Index.run Sample.notion_down Sample.fresh))
      = (trace Sample.fresh ++ evs)%list
      /\ count is_write evs = 0
      /\ 1 <= count is_query evs.
Proof.
  apply (run_throw_leaves_marker
           Sample.notion_down Sample.fresh
           (snd (Index.run Sample.notion_down Sample.fresh))
           {| message := "invalid json response body"; stack := "" |}).
  reflexivity.
Defined.

Lemma query_events_effects rt filter res data :
  List.filter is_effect (query_events rt filter res data)
  = [Fetch (query_request rt filter)].
Proof. unfold query_events. now destruct (ok res). Qed.

Lemma send_events_effects rt message res :
  List.filter is_effect (send_events rt message res)
  = [Fetch (slack_request rt message)].
Proof. unfold send_events. now destruct (ok res). Qed.

Lemma write_events_effects rt data :
  List.filter is_effect (write_events rt data) = [WriteFile data].
Proof. unfold write_events. now destruct (write_fault rt). Qed.

(** X3. Whatever the network and the disk do, the requests and file writes
    of one run are, in this order, an initial part of: the first query, the
    second query, one post, one write of (today, current period).  So a run
    never posts before both queries, never writes before the post, and
    never repeats a step.  Unless the write is reached the marker file is
    as before; in any case it ends as before, without JSON content, or
    holding (today, current period). *)
Theorem run_bounds :
  forall (rt : Runtime) (w : World),
    exists (evs : list Event) (message : string) (k : nat),
      trace (snd (Index.run rt w)) = (trace w ++ evs)%list
      /\ List.filter is_effect evs
         = firstn k
             [ Fetch (query_request rt (today_filter (toISODate (now rt))));
               Fetch (query_request rt (changed_filter (startOfDay (now rt))
                                                       (endOfDay (now rt))));
               Fetch (slack_request rt message);
               WriteFile (send_record rt) ]
      /\ k <= 4
      /\ (k < 4 -> last_send_file (snd (Index.run rt w)) = last_send_file w)
      /\ (last_send_file (snd (Index.run rt w)) = last_send_file w
          \/ last_send_file (snd (Index.run rt w)) = Content None
          \/ last_send_file (snd (Index.run rt w))
             = Content (Some (send_record rt))).
Proof.
  intros rt w.
  destruct (Index.already_sent (stored w) (toISODate (now rt))
                               (Index.current_period (now rt))) eqn:A.
  { apply recorded_iff in A. rewrite (run_skips _ _ A).
    eexists _, "", 0. cbn [fst snd trace extend last_send_file].
    split; [reflexivity|]. split; [reflexivity|].
    split; [lia|]. split; [reflexivity | now left]. }
  assert (Hstale : last_send_file w <> Content (Some (send_record rt))).
  { intros E. apply recorded_iff in E. congruence. }
  destruct (query_outcome rt (count is_fetch (trace w))
                          (today_filter (toISODate (now rt))))
    as [e | [res1 data1]] eqn:Q1.
  { rewrite (run_first_query_throws _ _ _ Hstale Q1).
    eexists _, "", 1. cbn [fst snd trace extend last_send_file].
    split; [reflexivity|]. split; [reflexivity|].
    split; [lia|]. split; [reflexivity | now left]. }
  destruct (query_outcome rt (count is_fetch (trace w) + 1)
                          (changed_filter (startOfDay (now rt))
                                          (endOfDay (now rt))))
    as [e | [res2 data2]] eqn:Q2.
  { rewrite (run_second_query_throws _ _ _ _ _ Hstale Q1 Q2).
    eexists _, "", 2. cbn [fst snd trace extend last_send_file].
    split; [reflexivity|].
    split; [rewrite filter_app, query_events_effects; reflexivity|].
    split; [lia|]. split; [reflexivity | now left]. }
  destruct (net rt (count is_fetch (trace w) + 2)
                (slack_request rt (selected_message rt (tasks_of res1 data1)
                                                    (tasks_of res2 data2))))
    as [e | res3] eqn:H3.
  { rewrite (run_post_rejected _ _ _ _ _ _ _ Hstale Q1 Q2 H3).
    eexists _, _, 3. cbn [fst snd trace extend last_send_file].
    split; [reflexivity|].
    split; [rewrite !filter_app, !query_events_effects; reflexivity|].
    split; [lia|]. split; [reflexivity | now left]. }
  apply query_outcome_inr in Q1 as [H1 U1].
  apply query_outcome_inr in Q2 as [H2 U2].
  rewrite (run_proceeds _ _ _ _ _ _ _ Hstale H1 U1 H2 U2 H3).
  eexists _, _, 4. cbn [fst snd trace last_send_file].
  split; [reflexivity|].
  split.
  { unfold events_until_sent.
    rewrite !filter_app, !query_events_effects, send_events_effects,
      write_events_effects. reflexivity. }
  split; [lia|]. split; [lia|].
  unfold written. destruct (write_fault rt); [|now right; right].
  destruct (write_fault_stage rt); auto.
Qed.

(** X4. A run is skipped exactly when the marker file holds (today, current
    period): in every other case at least one request goes out, whatever
    happens to it. *)
Theorem run_requests_unless_recorded :
  forall (rt : Runtime) (w : World),
    count is_fetch (trace (snd (Index.run rt w))) = count is_fetch (trace w)
    <-> last_send_file w
        = Content (Some {| date := Some (toISODate (now rt));
                           period := Some (Index.current_period (now rt)) |}).
Proof.
  intros rt w. fold (send_record rt).
  destruct (run_path rt w) as [A | e evs Hstale Hw Hq Hs Hsq Hf
                                 | r1 d1 r2 d2 r3 Hstale H3].
  - split; [intros _; exact A|]. intros _.
    cbn [trace extend]. rewrite count_app. cbn. lia.
  - split; [|intros A; contradiction].
    cbn [trace extend]. rewrite count_app. lia.
  - split; [|intros A; contradiction].
    cbn [trace]. rewrite !count_app, events_until_sent_fetches. lia.
Qed.

(** X5. Once a run has returned normally with a working disk, any later
    run on the same date and in the same period is skipped: it returns
    without a request, without a write and without touching the marker. *)
Theorem run_twice_sends_once :
  forall (rt later : Runtime) (w w' : World),
    Index.run rt w = (Returned tt, w') ->
    write_fault rt = None ->
    toISODate (now later) = toISODate (now rt) ->
    Index.current_period (now later) = Index.current_period (now rt) ->
    exists evs : list Event,
      Index.run later w' = (Returned tt, extend w' evs)
      /\ count is_fetch evs = 0
      /\ count is_write evs = 0.
Proof.
  intros rt later w w' Hrun Hdisk Hdate Hperiod.
  assert (Hrec : last_send_file w' = Content (Some (send_record later))).
  { unfold send_record. rewrite Hdate, Hperiod. fold (send_record rt).
    pose proof (run_path rt w) as P. rewrite Hrun in P. cbn [fst snd] in P.
    inversion P as [A | | r1 d1 r2 d2 r3 Hstale H3]; subst.
    - exact A.
    - cbn [last_send_file]. unfold written. now rewrite Hdisk. }
  eexists. split; [apply run_skips; exact Hrec|]. split; reflexivity.
Qed.

Lemma run_twice_sends_once_witness :
  exists evs : list Event,
    Index.run Sample.healthy (snd (Index.run Sample.healthy Sample.fresh))
    = (Returned tt, extend (snd (Index.run Sample.healthy Sample.fresh)) evs)
    /\ count is_fetch evs = 0
    /\ count is_write evs = 0.
Proof.
  apply (run_twice_sends_once Sample.healthy Sample.healthy Sample.fresh);
    reflexivity.
Defined.




(** X7. A database that answers both queries with an error status (and a
    JSON body) is not told apart from one without tasks: the run posts the
    title of the period followed by the no-tasks line, exactly as for two
    empty result lists, and goes on to record the period. *)
Theorem run_reports_no_tasks_when_database_fails :
  forall (rt : Runtime) (w : World)
         (res1 : Response) (data1 : Data) (res2 : Response) (data2 : Data)
         (res3 : Response),
    let title := if (hour (now rt) <? 12)%Z
                 then "Bom dia! Estas são as tarefas para hoje:"
                 else "Resumo do dia – alterações:" in
    let message := "*" ++ title ++ "*" ++ Js.LF ++ "Nenhuma tarefa encontrada." in
    last_send_file w <> Content (Some (send_record rt)) ->
    net rt (count is_fetch (trace w))
        (query_request rt (today_filter (toISODate (now rt))))
    = Resolved res1 ->
    json res1 = inr data1 -> ok res1 = false ->
    net rt (count is_fetch (trace w) + 1)
        (query_request rt (changed_filter (startOfDay (now rt))
                                          (endOfDay (now rt))))
    = Resolved res2 ->
    json res2 = inr data2 -> ok res2 = false ->
    net rt (count is_fetch (trace w) + 2) (slack_request rt message)
    = Resolved res3 ->
    exists w' : World,
      Index.run rt w = (Returned tt, w')
      /\ List.filter is_send (trace w')
         = (List.filter is_send (trace w)
            ++ [Fetch (slack_request rt message)])%list
      /\ message = selected_message rt [] []
      /\ (write_fault rt = None ->
          last_send_file w' = Content (Some (send_record rt))).
Proof.
  intros rt w res1 data1 res2 data2 res3 title message
         Hstale H1 J1 K1 H2 J2 K2 H3.
  assert (E1 : tasks_of res1 data1 = []) by (unfold tasks_of; now rewrite K1).
  assert (E2 : tasks_of res2 data2 = []) by (unfold tasks_of; now rewrite K2).
  assert (Em : message = selected_message rt [] []).
  { unfold message, title, selected_message, Index.current_period.
    destruct (hour (now rt) <? 12)%Z; reflexivity. }
  assert (H3' : net rt (count is_fetch (trace w) + 2)
                    (slack_request rt (selected_message rt (tasks_of res1 data1)
                                                        (tasks_of res2 data2)))
                = Resolved res3)
    by (rewrite E1, E2, <- Em; exact H3).
  assert (U1 : usable res1 data1) by (split; [exact J1 | congruence]).
  assert (U2 : usable res2 data2) by (split; [exact J2 | congruence]).
  eexists. split; [exact (run_proceeds _ _ _ _ _ _ _ Hstale H1 U1 H2 U2 H3')|].
  cbn [trace last_send_file]. split; [|split; [exact Em|]].
  - rewrite !filter_app. f_equal.
    unfold events_until_sent, query_events, send_events, write_events.
    rewrite K1, K2, E1, E2, <- Em.
    destruct (ok res3), (write_fault rt); reflexivity.
  - intros Hdisk. unfold written. now rewrite Hdisk.
Qed.

Lemma run_reports_no_tasks_when_database_fails_witness :
  exists w' : World,
    Index.run Sample.database_error Sample.fresh = (Returned tt, w')
    /\ List.filter is_send (trace w')
       = [Fetch (slack_request Sample.database_error
                   ("*Bom dia! Estas são as tarefas para hoje:*" ++ Js.LF
                      ++ "Nenhuma tarefa encontrada."))]
    /\ "*Bom dia! Estas são as tarefas para hoje:*" ++ Js.LF
         ++ "Nenhuma tarefa encontrada."
       = selected_message Sample.database_error [] []
    /\ (write_fault Sample.database_error = None ->
        last_send_file w'
        = Content (Some (send_record Sample.database_error))).
Proof.
  refine (run_reports_no_tasks_when_database_fails
            Sample.database_error Sample.fresh
            Sample.unavailable (JsonValue None)
            Sample.unavailable (JsonValue None)
            Sample.accepted _ _ _ _ _ _ _ _);
    solve [reflexivity | discriminate].
Defined.

(** ** Computations that do not look at the marker file *)

Lemma set_file_same w : set_file (last_send_file w) w = w.
Proof. now destruct w. Qed.

Lemma file_blind_keeps {A : Type} (m : M A) :
  file_blind m -> forall w, last_send_file (snd (m w)) = last_send_file w.
Proof.
  intros Hm w. pose proof (Hm w (last_send_file w)) as E.
  rewrite set_file_same in E.
  apply (f_equal snd) in E. cbn [snd] in E. now rewrite E.
Qed.

Lemma file_blind_ret {A : Type} (a : A) : file_blind (ret a).
Proof. now intros w f. Qed.

Lemma file_blind_throw {A : Type} (e : Exn) : file_blind (@throw A e).
Proof. now intros w f. Qed.

Lemma file_blind_emit e : file_blind (emit e).
Proof. now intros w f. Qed.

Lemma file_blind_fetch rt req : file_blind (fetch rt req).
Proof.
  intros w f. unfold fetch. cbn [trace set_file].
  now destruct (net rt (count is_fetch (trace w)) req).
Qed.

Lemma file_blind_res_json res : file_blind (res_json res).
Proof. intros w f. unfold res_json. now destruct (json res). Qed.

Lemma file_blind_bind {A B : Type} (m : M A) (k : A -> M B) :
  file_blind m -> (forall a, file_blind (k a)) -> file_blind (bind m k).
Proof.
  intros Hm Hk w f. rewrite !bind_unfold, Hm.
  destruct (m w) as [[a | e] w1]; cbn [fst snd].
  - apply Hk.
  - reflexivity.
Qed.

Lemma file_blind_try_catch {A : Type} (m : M A) (h : Exn -> M A) :
  file_blind m -> (forall e, file_blind (h e)) -> file_blind (try_catch m h).
Proof.
  intros Hm Hh w f. rewrite !try_catch_unfold, Hm.
  destruct (m w) as [[a | e] w1]; cbn [fst snd].
  - reflexivity.
  - apply Hh.
Qed.

Lemma file_blind_if {A : Type} (c : bool) (m1 m2 : M A) :
  file_blind m1 -> file_blind m2 -> file_blind (if c then m1 else m2).
Proof. now destruct c. Qed.

Create HintDb blind.
#[export] Hint Resolve file_blind_ret file_blind_throw file_blind_emit
  file_blind_fetch file_blind_res_json file_blind_if : blind.

Ltac blind :=
  unfold console_log, console_log2, console_error;
  repeat first
    [ apply file_blind_bind; [ | intro ]
    | apply file_blind_try_catch; [ | intro ]
    | apply file_blind_if
    | solve [ auto with blind ] ].

Lemma file_blind_queryNotion rt filter : file_blind (queryNotion rt filter).
Proof.
  unfold queryNotion.
  apply file_blind_bind; [blind | intros res].
  apply file_blind_bind; [blind | intros data].
  apply file_blind_if; [blind|].
  destruct data as [|[l|]]; blind.
Qed.

Lemma file_blind_handler_sendToSlack rt message :
  file_blind (Handler.sendToSlack rt message).
Proof. unfold Handler.sendToSlack. cbv zeta. blind. Qed.

Lemma file_blind_handler rt : file_blind (Handler.handler rt).
Proof.
  unfold Handler.handler. cbv zeta.
  apply file_blind_try_catch; [ | intro; blind ].
  apply file_blind_bind; [blind | intros _].
  apply file_blind_if; [blind|].
  do 4 (apply file_blind_bind; [blind | intros _]).
  apply file_blind_bind; [apply file_blind_queryNotion | intros todayTasks].
  do 2 (apply file_blind_bind; [blind | intros _]).
  apply file_blind_bind; [apply file_blind_queryNotion | intros changedTasks].
  do 3 (apply file_blind_bind; [blind | intros _]).
  apply file_blind_bind; [apply file_blind_handler_sendToSlack | intros _].
  blind.
Qed.

(** X8. The request handler neither reads nor writes the marker file:
    whatever the file holds, the handler gives the same reply and makes the
    same requests and log entries, and the file is left as it was.  In
    particular a period already recorded by the file-guarded script does
    not stop the handler from querying and posting. *)
Theorem handler_ignores_marker :
  forall (rt : Runtime) (w : World) (f : FileState),
    Handler.handler rt {| last_send_file := f; trace := trace w |}
    = (fst (Handler.handler rt w),
       {| last_send_file := f; trace := trace (snd (Handler.handler rt w)) |})
    /\ last_send_file (snd (Handler.handler rt w)) = last_send_file w.
Proof.
  intros rt w f. split.
  - exact (file_blind_handler rt w f).
  - apply file_blind_keeps, file_blind_handler.
Qed.

(** ** What the request handler can answer *)



Lemma configured_check rt :
  Js.falsy (NOTION_API_KEY rt) || Js.falsy (NOTION_DATABASE_ID rt)
  || Js.falsy (SLACK_WEBHOOK_URL rt) = false
  <-> configured rt.
Proof.
  unfold configured. rewrite !orb_false_iff. tauto.
Qed.



(** ** The request handler, path by path *)

Lemma handler_prologue_fetches rt : count is_fetch (handler_prologue rt) = 0.
Proof. reflexivity. Qed.


Lemma handler_first_query_throws rt w e :
  configured rt ->
  query_outcome rt (count is_fetch (trace w))
                (today_filter (toISODate (now rt))) = inl e ->
  Handler.handler rt w
  = (Returned (failure_reply e),
     extend w (handler_prologue rt
               ++ [ Fetch (query_request rt (today_filter (toISODate (now rt))));
                    ConsoleError "❌ Erro na execução:" (PExn e) ])%list).
Proof.
  intros C Q1. apply configured_check in C.
  unfold Handler.handler.
  rewrite try_catch_unfold, bind_unfold, console_log_eq, C. cbv zeta.
  do 4 (rewrite bind_unfold, console_log_eq, extend_extend).
  rewrite bind_unfold, queryNotion_outcome.
  rewrite fetch_index_logs by reflexivity. rewrite Q1.
  rewrite bind_unfold. unfold console_error. rewrite emit_eq. unfold ret.
  rewrite !extend_extend. reflexivity.
Qed.

Lemma handler_second_query_throws rt w res1 data1 e :
  configured rt ->
  query_outcome rt (count is_fetch (trace w))
                (today_filter (toISODate (now rt))) = inr (res1, data1) ->
  query_outcome rt (count is_fetch (trace w) + 1)
                (changed_filter (startOfDay (now rt)) (endOfDay (now rt)))
  = inl e ->
  exists evs : list Event,
    Handler.handler rt w = (Returned (failure_reply e), extend w evs)
    /\ count is_query evs = 2
    /\ count is_send evs = 0.
Proof.
  intros C Q1 Q2. apply configured_check in C.
  unfold Handler.handler.
  rewrite try_catch_unfold, bind_unfold, console_log_eq, C. cbv zeta.
  do 4 (rewrite bind_unfold, console_log_eq, extend_extend).
  rewrite bind_unfold, queryNotion_outcome.
  rewrite fetch_index_logs by reflexivity. rewrite Q1.
  do 2 (rewrite bind_unfold, console_log_eq, extend_extend).
  rewrite bind_unfold, queryNotion_outcome.
  match goal with
  | |- context [query_outcome rt ?k (changed_filter _ _)] =>
      replace k with (count is_fetch (trace w) + 1)
        by (rewrite !fetch_index, !count_app, query_events_fetch_count;
            cbn [count List.filter is_fetch length]; lia)
  end.
  rewrite Q2.
  rewrite bind_unfold. unfold console_error. rewrite emit_eq. unfold ret.
  rewrite !extend_extend.
  eexists. split; [reflexivity|].
  rewrite !count_app, query_events_queries, query_events_sends.
  split; reflexivity.
Qed.





(** X11. With the three variables set, a query that throws (a rejected
    request, a body that is not JSON, or a null body under a success
    status) makes the handler answer 500 with the message and the stack of
    that error; nothing is posted to the webhook, and a failing first query
    is not followed by the second. *)
Theorem handler_reports_query_error :
  forall (rt : Runtime) (w : World) (e : Exn),
    configured rt ->
    (query_outcome rt (count is_fetch (trace w))
                   (today_filter (toISODate (now rt))) = inl e
     \/ exists res1 data1,
         query_outcome rt (count is_fetch (trace w))
                       (today_filter (toISODate (now rt))) = inr (res1, data1)
         /\ query_outcome rt (count is_fetch (trace w) + 1)
                          (changed_filter (startOfDay (now rt))
                                          (endOfDay (now rt))) = inl e) ->
    exists evs : list Event,
      Handler.handler rt w
      = (Returned {| Handler.code := 500;
                     Handler.reply_body :=
                       Handler.Failure (message e) (stack e) |},
         extend w evs)
      /\ count is_send evs = 0
      /\ (query_outcome rt (count is_fetch (trace w))
                        (today_filter (toISODate (now rt))) = inl e ->
          count is_query evs = 1).
Proof.
  intros rt w e C [Q1 | (res1 & data1 & Q1 & Q2)].
  - rewrite (handler_first_query_throws rt w e C Q1).
    eexists. split; [reflexivity|]. split; [reflexivity|].
    intros _. reflexivity.
  - destruct (handler_second_query_throws rt w res1 data1 e C Q1 Q2)
      as (evs & Hrun & Hq & Hs).
    exists evs. split; [exact Hrun|]. split; [exact Hs|].
    intros Q1'. rewrite Q1 in Q1'. discriminate.
Qed.

Lemma handler_reports_query_error_witness :
  exists evs : list Event,
    Handler.handler Sample.notion_down Sample.fresh
    = (Returned {| Handler.code := 500;
                   Handler.reply_body :=
                     Handler.Failure "invalid json response body" "" |},
       extend Sample.fresh evs)
    /\ count is_send evs = 0
    /\ (query_outcome Sample.notion_down 0 (today_filter "2024-03-05")
        = inl {| message := "invalid json response body"; stack := "" |} ->
        count is_query evs = 1).
Proof.
  apply (handler_reports_query_error
           Sample.notion_down Sample.fresh
           {| message := "invalid json response body"; stack := "" |}).
  - repeat split.
  - left. reflexivity.
Defined.



(** ** The wrapper around the run *)





(** ** More on formatting *)

Lemma includes_remove_all_other c d s :
  c <> d -> Js.includes c (Js.remove_all d s) = Js.includes c s.
Proof.
  intros Hcd. induction s as [|a s IH]; simpl; [reflexivity|].
  destruct (Ascii.eqb a d) eqn:Ead; simpl.
  - apply Ascii.eqb_eq in Ead. subst a.
    destruct (Ascii.eqb d c) eqn:Edc.
    + apply Ascii.eqb_eq in Edc. congruence.
    + exact IH.
  - now rewrite IH.
Qed.

Lemma split_join c lines :
  lines <> [] ->
  Forall (fun l => Js.includes c l = false) lines ->
  Js.split c (Js.join (String c "") lines) = lines.
Proof.
  intros Hne Hall. induction Hall as [|x rest Hx Hrest IH]; [contradiction|].
  destruct rest as [|y rest].
  - simpl. now apply split_without.
  - change (Js.join (String c "") (x :: y :: rest))
      with (x ++ String c (Js.join (String c "") (y :: rest))).
    rewrite split_at_first by exact Hx.
    rewrite IH by discriminate. reflexivity.
Qed.

Lemma task_line_one_line task :
  Js.includes Js.LF_char (id task) = false ->
  Js.includes Js.LF_char (task_name task) = false ->
  Js.includes Js.LF_char (task_status task) = false ->
  Js.includes Js.LF_char (task_line task) = false.
Proof.
  intros Hid Hname Hstatus. unfold task_line, getTaskUrl. cbv zeta.
  rewrite !includes_append, Hname, Hstatus.
  rewrite includes_remove_all_other, Hid by discriminate.
  reflexivity.
Qed.

Lemma remove_all_string_of_filter c s :
  Js.remove_all c s
  = string_of_list_ascii
      (filter (fun a => negb (Ascii.eqb a c)) (list_ascii_of_string s)).
Proof.
  induction s as [|a s IH]; simpl; [reflexivity|].
  destruct (Ascii.eqb a c); simpl; now rewrite IH.
Qed.

Lemma remove_all_append c s1 s2 :
  Js.remove_all c (s1 ++ s2) = Js.remove_all c s1 ++ Js.remove_all c s2.
Proof.
  induction s1 as [|a s1 IH]; simpl; [reflexivity|].
  destruct (Ascii.eqb a c); simpl; now rewrite IH.
Qed.

Lemma formatTasks_split_lines tasks title :
  tasks <> [] ->
  Js.includes Js.LF_char title = false ->
  (forall task, In task tasks ->
                Js.includes Js.LF_char (id task) = false
                /\ Js.includes Js.LF_char (task_name task) = false
                /\ Js.includes Js.LF_char (task_status task) = false) ->
  Js.split Js.LF_char (formatTasks tasks title)
  = ("*" ++ title ++ "*") :: map task_line tasks.
Proof.
  intros Hne Htitle Htasks. unfold formatTasks.
  destruct tasks as [|t rest]; [contradiction|].
  cbn [length Nat.eqb]. cbv zeta.
  change Js.LF with (String Js.LF_char "").
  replace ("*" ++ title ++ "*" ++ String Js.LF_char ""
               ++ Js.join (String Js.LF_char "") (map task_line (t :: rest)))
    with (("*" ++ title ++ "*")
            ++ String Js.LF_char
                 (Js.join (String Js.LF_char "") (map task_line (t :: rest))))
    by (simpl; now rewrite str_append_assoc).
  rewrite split_at_first
    by (simpl; rewrite includes_append, Htitle; reflexivity).
  f_equal. apply split_join; [discriminate|].
  apply Forall_forall. intros l Hl. apply in_map_iff in Hl as (task & <- & Hin).
  destruct (Htasks task Hin) as (Hid & Hname & Hstatus).
  now apply task_line_one_line.
Qed.

(** ** C5: formatting a non-empty list *)

(** Case analysis on a title-like field down to its first text. *)
Ltac open_field F :=
  let t := fresh "t" in
  let items := fresh "items" in
  let item := fresh "item" in
  let txt := fresh "txt" in
  destruct F as [t|];
  [ destruct t as [items]; destruct items as [items|];
    [ destruct items as [|item items];
      [ | destruct item as [txt]; destruct txt as [txt|];
          [ destruct txt | ] ]
    | ]
  | ].

Lemma task_name_spec task : task_name task = Spec.shown_name task.
Proof.
  unfold task_name, Spec.shown_name, title_text, Spec.first_text, chain,
    Js.or_else, Js.or_opt.
  destruct (properties task) as [[T N S] | ]; [|reflexivity].
  cbn [Title Name].
  open_field T; open_field N; reflexivity.
Qed.

Lemma task_status_spec task : task_status task = Spec.shown_status task.
Proof.
  unfold task_status, Spec.shown_status, status_name, chain, Js.or_else.
  destruct (properties task) as [[T N S] | ]; [|reflexivity].
  cbn [Status].
  destruct S as [S|]; [|reflexivity].
  destruct S as [v]. destruct v as [v|]; [|reflexivity].
  destruct v as [n]. destruct n as [n|]; [|reflexivity].
  destruct n; reflexivity.
Qed.

Lemma task_line_spec task : task_line task = Spec.bullet task.
Proof.
  unfold task_line, Spec.bullet, Spec.link, getTaskUrl. cbv zeta.
  now rewrite task_name_spec, task_status_spec, remove_all_string_of_filter.
Qed.

Lemma join_fold_right (first : string) (rest : list string) :
  Js.join Js.LF (first :: rest)
  = first ++ fold_right (fun l acc => Js.LF ++ l ++ acc) "" rest.
Proof.
  revert first. induction rest as [|second rest IH]; intros first.
  - simpl. induction first as [|a f IHf]; simpl; [reflexivity | now rewrite <- IHf].
  - change (Js.join Js.LF (first :: second :: rest))
      with (first ++ Js.LF ++ Js.join Js.LF (second :: rest)).
    rewrite IH. reflexivity.
Qed.

Lemma fold_right_bullets (tasks : list Task) :
  fold_right (fun l acc => Js.LF ++ l ++ acc) "" (map task_line tasks)
  = fold_right (fun task rest => Js.LF ++ Spec.bullet task ++ rest) "" tasks.
Proof.
  induction tasks as [|t rest IH]; [reflexivity|].
  cbn [map fold_right]. now rewrite IH, task_line_spec.
Qed.

(** C5, as the specification words it, fails: a task whose name holds a
    line feed takes two lines of the message, neither of which has the
    shape of a bullet, so one task gives three lines and not two. *)
Lemma formatTasks_name_with_line_feed :
  length [Sample.two_line_page] = 1
  /\ Js.split Js.LF_char (formatTasks [Sample.two_line_page] "Resumo")
     = [ "*Resumo*";
         "• *<https://www.notion.so/1f0c77aa9e|Revisar";
         "PR>* – Em Progresso" ].
Proof. split; reflexivity. Qed.

(** C5 (amended). For every non-empty task list the output is the title
    between asterisks followed, for each task in input order, by a line
    feed and the text [• *<url|name>* – status]; the url is the link prefix
    with the identifier stripped of hyphens, the name is the first
    non-empty text among the Title field and the Name field, else the
    placeholder, and the status is the status name when present and
    non-empty, else the placeholder.  When neither the title nor any
    identifier, name or status holds a line feed, these texts are exactly
    the lines after the title line: one bullet line per task. *)
Theorem formatTasks_bullets :
  forall (tasks : list Task) (title : string),
    tasks <> [] ->
    formatTasks tasks title = Spec.message title tasks
    /\ (Js.includes Js.LF_char title = false ->
        (forall task, In task tasks ->
                      Js.includes Js.LF_char (id task) = false
                      /\ Js.includes Js.LF_char (Spec.shown_name task) = false
                      /\ Js.includes Js.LF_char (Spec.shown_status task)
                         = false) ->
        Js.split Js.LF_char (formatTasks tasks title)
        = ("*" ++ title ++ "*") :: map Spec.bullet tasks).
Proof.
  intros tasks title Hne. split.
  - unfold formatTasks, Spec.message.
    destruct tasks as [|t rest]; [contradiction|].
    cbn [length Nat.eqb]. cbv zeta.
    cbn [map]. rewrite join_fold_right, fold_right_bullets, task_line_spec.
    reflexivity.
  - intros Htitle Htasks.
    rewrite (formatTasks_split_lines tasks title Hne Htitle).
    + f_equal. apply map_ext. intros task. apply task_line_spec.
    + intros task Hin. rewrite task_name_spec, task_status_spec.
      now apply Htasks.
Qed.

Lemma formatTasks_bullets_witness :
  formatTasks [Sample.page; Sample.page] "Resumo"
  = Spec.message "Resumo" [Sample.page; Sample.page]
  /\ Js.split Js.LF_char (formatTasks [Sample.page; Sample.page] "Resumo")
     = [ "*Resumo*";
         "• *<https://www.notion.so/1f0c77aa9e|Revisar PR>* – Em Progresso";
         "• *<https://www.notion.so/1f0c77aa9e|Revisar PR>* – Em Progresso" ].
Proof.
  destruct (formatTasks_bullets [Sample.page; Sample.page] "Resumo")
    as [E L]; [discriminate|].
  split; [exact E|].
  apply L; [reflexivity|].
  intros task [<- | [<- | []]]; repeat split.
Defined.

(** ** The lines of a message *)

(** X15. When the title and the identifier, name and status of every task
    are free of line feeds, splitting the formatted message at line feeds
    gives back the title line followed by the bullet of each task: a
    message for n tasks (n > 0) has exactly n + 1 lines. *)
Theorem formatTasks_lines :
  forall (tasks : list Task) (title : string),
    tasks <> [] ->
    Js.includes Js.LF_char title = false ->
    (forall task, In task tasks ->
                  Js.includes Js.LF_char (id task) = false
                  /\ Js.includes Js.LF_char (task_name task) = false
                  /\ Js.includes Js.LF_char (task_status task) = false) ->
    Js.split Js.LF_char (formatTasks tasks title)
    = ("*" ++ title ++ "*") :: map task_line tasks
    /\ length (Js.split Js.LF_char (formatTasks tasks title))
       = S (length tasks).
Proof.
  intros tasks title Hne Htitle Htasks.
  pose proof (formatTasks_split_lines tasks title Hne Htitle Htasks) as E.
  split; [exact E|]. rewrite E. cbn [length]. now rewrite length_map.
Qed.

Lemma formatTasks_lines_witness :
  Js.split Js.LF_char (formatTasks [Sample.page; Sample.page] "Resumo")
  = ("*" ++ "Resumo" ++ "*") :: map task_line [Sample.page; Sample.page]
  /\ length (Js.split Js.LF_char
               (formatTasks [Sample.page; Sample.page] "Resumo"))
     = 3.
Proof.
  apply (formatTasks_lines [Sample.page; Sample.page] "Resumo").
  - discriminate.
  - reflexivity.
  - intros task [<- | [<- | []]]; repeat split.
Defined.

(** X16. Two tasks get the same link exactly when their identifiers hold
    the same characters other than hyphens, in the same order.  So a hyphen
    added anywhere in an identifier does not change the link: the dashed
    and the undashed form of a page identifier lead to the same page. *)
Theorem getTaskUrl_same_link :
  forall task1 task2 : Task,
    (getTaskUrl task1 = getTaskUrl task2
     <-> filter (fun a => negb (Ascii.eqb a "-"))
                (list_ascii_of_string (id task1))
         = filter (fun a => negb (Ascii.eqb a "-"))
                  (list_ascii_of_string (id task2)))
    /\ forall (before after : string) (p : option Properties),
        getTaskUrl {| id := before ++ "-" ++ after; properties := p |}
        = getTaskUrl {| id := before ++ after; properties := p |}.
Proof.
  intros task1 task2. unfold getTaskUrl. cbv zeta. split.
  - rewrite !remove_all_string_of_filter. split.
    + intros E. simpl in E. injection E as E.
      apply (f_equal list_ascii_of_string) in E.
      now rewrite !list_ascii_of_string_of_list_ascii in E.
    + now intros ->.
  - intros before after p. cbn [id].
    now rewrite !remove_all_append.
Qed.

(** X17. The two entry points name the period differently exactly from 12
    to 14 o'clock: there the file-guarded script says evening and the
    request handler says morning; at every other hour they agree. *)
Theorem periods_disagree_from_12_to_14 :
  forall now_ : DateTime,
    Index.current_period now_ <> Handler.current_period now_
    <-> (12 <= hour now_ < 15)%Z.
Proof.
  intros now_. unfold Index.current_period, Handler.current_period.
  destruct (Z.ltb_spec (hour now_) 12), (Z.ltb_spec (hour now_) 15);
    split; intros K; try lia; try discriminate; try congruence.
Qed.

(** ** A post that never reaches the webhook *)


